(** * Adreno IOMMU pagetable-switch command synthesis

    A shallow embedding of [drivers/gpu/msm/adreno_iommu.c]: the generators
    that fill a command buffer with PM4 words (privilege toggle, prefetch
    stall, a6xx pagetable switch, context record) and the two entry points
    that hand the buffers to the ring-buffer transport.

    The C generators receive a pointer [cmds] into a word buffer, store
    through it with [*cmds++ = w], advance it with [cmds += f(.., cmds)] and
    return [cmds - cmds_orig].  They are embedded in a state monad whose
    state is the buffer together with the function's local [cmds].  Pointers
    are word indices and counts are natural numbers: a count is a distance
    between two pointers into one allocation. *)

From Stdlib Require Import ZArith.
From stdpp Require Import base option list gmap strings.

Local Open Scope Z_scope.

(** ** 32-bit command words *)

Definition word := Z.

Definition lower_32_bits (n : Z) : word := Z.land n 4294967295.
Definition upper_32_bits (n : Z) : word := Z.land (Z.shiftr (Z.shiftr n 16) 16) 4294967295.

(** [u64] addition, as in [gpuaddr + offset]. *)
Definition add_u64 (a b : Z) : Z := (a + b) mod 2 ^ 64.

(** An [int] used as a condition. *)
Definition int_true (z : Z) : bool := negb (z =? 0).

(** [test_bit(nr, &flags)] of the kernel's bit operations. *)
Definition test_bit (nr : Z) (flags : Z) : bool := Z.testbit flags nr.

(** ** A generic state monad *)

Definition State (S A : Type) : Type := S → A * S.

#[global] Instance state_ret {S} : MRet (State S) := λ A a s, (a, s).
#[global] Instance state_bind {S} : MBind (State S) :=
  λ A B f m s, let '(a, s') := m s in f a s'.

(** ** Command buffers

    [cells] holds the words stored so far, indexed from the start of the
    allocation; a cell that was never stored to is uninitialised ([None] on
    lookup).  [capacity] is the size of the allocation in words.  A store at
    or past [capacity] is outside the allocation: the embedding keeps the
    word (so that what the transport is handed can still be described) and
    raises [overrun].  [pos] is the generator's local pointer [cmds]. *)

Record cmdbuf := CmdBuf {
  cells : gmap nat word;
  capacity : nat;
  overrun : bool;
  pos : nat
}.

Definition Gen := State cmdbuf.

(** A fresh allocation of [n] words, with [cmds] at its start. *)
Definition fresh_buf (n : nat) : cmdbuf :=
  {| cells := ∅; capacity := n; overrun := false; pos := 0 |}.

(** [*cmds++ = w] *)
Definition store_word (w : word) (b : cmdbuf) : cmdbuf :=
  {| cells := <[pos b := w]> (cells b);
     capacity := capacity b;
     overrun := overrun b || bool_decide (capacity b ≤ pos b)%nat;
     pos := S (pos b) |}.

Definition emit (w : word) : Gen unit := λ b, (tt, store_word w b).

(** The value of the local pointer [cmds]. *)
Definition cursor : Gen nat := λ b, (pos b, b).

(** [cmds += f(.., cmds)]: the callee gets the pointer by value, stores
    through it, and the caller advances its own pointer by the returned
    count. *)
Definition advance (f : Gen nat) : Gen unit := λ b,
  let '(n, b') := f b in
  (tt, {| cells := cells b'; capacity := capacity b';
          overrun := overrun b'; pos := (pos b + n)%nat |}).

(** Storing a list of words one after the other. *)
Fixpoint store_words (ws : list word) (b : cmdbuf) : cmdbuf :=
  match ws with
  | [] => b
  | w :: ws' => store_words ws' (store_word w b)
  end.

(** What a reader of [n] words from word index [p] sees. *)
Definition read_words (b : cmdbuf) (p n : nat) : list (option word) :=
  (λ i, cells b !! (p + i)%nat) <$> seq 0 n.

(** ** Device structures (the fields this file reads) *)

(** A [struct kgsl_pagetable *]; the code compares these pointers. *)
Definition kgsl_pagetable := Z.

Record kgsl_iommu_context := { cb_num : Z }.

Record kgsl_iommu := {
  setstate_gpuaddr : Z;                    (* iommu->setstate.gpuaddr *)
  ctx : Z → kgsl_iommu_context             (* iommu->ctx[i] *)
}.

Record kgsl_device := {
  mmu_type : Z;                            (* read by kgsl_mmu_get_mmutype *)
  mmu_defaultpagetable : kgsl_pagetable;   (* device->mmu.defaultpagetable *)
  mmu_iommu : kgsl_iommu;                  (* KGSL_IOMMU_PRIV(device) *)
  memstore_gpuaddr : Z                     (* read by the memstore macros *)
}.

Record adreno_device := {
  dev : kgsl_device;                       (* KGSL_DEVICE(adreno_dev) *)
  gpucore_features : Z;                    (* read by ADRENO_FEATURE *)
  perfcounter : bool;
  priv : Z
}.

Record adreno_context := {
  base_id : Z;                             (* drawctxt->base.id *)
  base_proc_priv_pagetable : kgsl_pagetable
}.

Record adreno_ringbuffer := {
  rb_device : adreno_device;               (* ADRENO_RB_DEVICE(rb) *)
  rb_id : Z;                               (* read by MEMSTORE_RB_GPU_ADDR *)
  drawctxt_active : option adreno_context;
  pagetable_desc_gpuaddr : Z               (* rb->pagetable_desc.gpuaddr *)
}.

Definition KGSL_DEVICE (adreno_dev : adreno_device) : kgsl_device := dev adreno_dev.
Definition ADRENO_RB_DEVICE (rb : adreno_ringbuffer) : adreno_device := rb_device rb.
Definition KGSL_IOMMU_PRIV (device : kgsl_device) : kgsl_iommu := mmu_iommu device.

(** The member of [struct kgsl_devmemstore] named by the memstore macros. *)
Inductive memstore_field := current_context.

(** ** The headers this file includes

    [adreno_pm4types.h], [a6xx_reg.h], [adreno.h] and the kgsl headers lie
    outside adreno_iommu.c.  Everything the file takes from them is a member
    of this interface, so every result below holds for any packet encoding
    and any register map.  A helper that stores words through
    [cmds] and returns how many it stored is given by the list of words it
    stores. *)

Class Headers := {
  (* adreno_pm4types.h: packet headers *)
  cp_type4_packet : Z → Z → word;
  cp_type7_packet : Z → Z → word;
  cp_packet : adreno_device → Z → Z → word;
  cp_mem_packet : adreno_device → Z → Z → Z → word;
  cp_register : adreno_device → Z → Z → word;
  (* adreno_pm4types.h: helpers that store words *)
  wait_for_idle_pkt : adreno_device → list word;
  wait_for_me_pkt : adreno_device → list word;
  gpuaddr_pkt : adreno_device → Z → list word;
  invalidate_state_pkt : adreno_device → list word;
  identifier_pkt : adreno_device → Z → list word;
  (* adreno_pm4types.h: opcodes *)
  CP_INDIRECT_BUFFER_PFE : Z;
  CP_SMMU_TABLE_UPDATE : Z;
  CP_MEM_WRITE : Z;
  CP_WAIT_REG_MEM : Z;
  CP_EVENT_WRITE : Z;
  CONTEXT_TO_MEM_IDENTIFIER : Z;
  (* a6xx_reg.h *)
  A6XX_RBBM_PERFCTR_SRAM_INIT_CMD : Z;
  A6XX_RBBM_PERFCTR_SRAM_INIT_STATUS : Z;
  (* adreno.h *)
  ADRENO_REG_CP_CNTL : Z;
  adreno_getreg : adreno_device → Z → Z;
  ADRENO_APRIV : Z;
  ADRENO_FEATURE : adreno_device → Z → bool;
  ADRENO_DEVICE_FAULT : Z;
  PT_INFO_OFFSET_ttbr0 : Z;                (* PT_INFO_OFFSET(ttbr0) *)
  (* kgsl headers *)
  KGSL_IOMMU_CONTEXT_USER : Z;
  KGSL_IOMMU_SETSTATE_NOP_OFFSET : Z;
  KGSL_CMD_FLAGS_PMODE : Z;
  KGSL_MEMSTORE_GLOBAL : Z;
  KGSL_MMU_TYPE_NONE : Z;
  MEMSTORE_RB_GPU_ADDR : kgsl_device → adreno_ringbuffer → memstore_field → Z;
  MEMSTORE_ID_GPU_ADDR : kgsl_device → Z → memstore_field → Z;
  kgsl_mmu_get_mmutype : kgsl_device → Z;
  kgsl_mmu_pagetable_get_ttbr0 : kgsl_pagetable → Z;
  kgsl_mmu_pagetable_get_contextidr : kgsl_pagetable → Z;
  (* linux headers *)
  PAGE_SIZE : Z;
  ENOMEM : Z
}.

Section Generators.
Context `{H : Headers}.

(** A helper of [adreno_pm4types.h] that stores [ws] through [cmds] and
    returns the number of words stored. *)
Definition store_pkt (ws : list word) : Gen nat := λ b,
  (length ws, store_words ws b).

Definition cp_wait_for_idle (adreno_dev : adreno_device) : Gen nat :=
  store_pkt (wait_for_idle_pkt adreno_dev).
Definition cp_wait_for_me (adreno_dev : adreno_device) : Gen nat :=
  store_pkt (wait_for_me_pkt adreno_dev).
Definition cp_gpuaddr (adreno_dev : adreno_device) (gpuaddr : Z) : Gen nat :=
  store_pkt (gpuaddr_pkt adreno_dev gpuaddr).
Definition cp_invalidate_state (adreno_dev : adreno_device) : Gen nat :=
  store_pkt (invalidate_state_pkt adreno_dev).
Definition cp_identifier (adreno_dev : adreno_device) (id : Z) : Gen nat :=
  store_pkt (identifier_pkt adreno_dev id).

(** ** The generators of adreno_iommu.c *)

Definition _adreno_iommu_add_idle_cmds (adreno_dev : adreno_device) : Gen nat :=
  start ← cursor;
  advance (cp_wait_for_idle adreno_dev);;
  cmds ← cursor;
  mret (cmds - start)%nat.

Definition adreno_iommu_set_apriv (adreno_dev : adreno_device) (set : Z) : Gen nat :=
  cmds_orig ← cursor;
  if ADRENO_FEATURE adreno_dev ADRENO_APRIV then mret 0%nat
  else
    advance (cp_wait_for_idle adreno_dev);;
    advance (cp_wait_for_me adreno_dev);;
    emit (cp_register adreno_dev (adreno_getreg adreno_dev ADRENO_REG_CP_CNTL) 1);;
    (if int_true set then emit 1 else emit 0);;
    cmds ← cursor;
    mret (cmds - cmds_orig)%nat.

Definition _adreno_iommu_add_idle_indirect_cmds (adreno_dev : adreno_device)
    (nop_gpuaddr : Z) : Gen nat :=
  start ← cursor;
  advance (cp_wait_for_me adreno_dev);;
  emit (cp_mem_packet adreno_dev CP_INDIRECT_BUFFER_PFE 2 1);;
  advance (cp_gpuaddr adreno_dev nop_gpuaddr);;
  emit 2;;
  advance (cp_wait_for_idle adreno_dev);;
  cmds ← cursor;
  mret (cmds - start)%nat.

(** The C function is given the [kgsl_device] and starts by taking the
    [adreno_device] that contains it; here it is given the latter. *)
Definition _adreno_iommu_set_pt_v2_a6xx (adreno_dev : adreno_device)
    (ttbr0 : Z) (contextidr : Z) (rb : adreno_ringbuffer) (cb_num : Z) : Gen nat :=
  cmds_orig ← cursor;
  advance (_adreno_iommu_add_idle_cmds adreno_dev);;
  advance (cp_wait_for_me adreno_dev);;
  (if negb (perfcounter adreno_dev) then
     emit (cp_type4_packet A6XX_RBBM_PERFCTR_SRAM_INIT_CMD 1);;
     emit 1
   else mret tt);;
  emit (cp_packet adreno_dev CP_SMMU_TABLE_UPDATE 4);;
  emit (lower_32_bits ttbr0);;
  emit (upper_32_bits ttbr0);;
  emit contextidr;;
  emit cb_num;;
  emit (cp_mem_packet adreno_dev CP_MEM_WRITE 4 1);;
  advance (cp_gpuaddr adreno_dev
             (add_u64 (pagetable_desc_gpuaddr rb) PT_INFO_OFFSET_ttbr0));;
  emit (lower_32_bits ttbr0);;
  emit (upper_32_bits ttbr0);;
  emit contextidr;;
  advance (cp_wait_for_me adreno_dev);;
  advance (_adreno_iommu_add_idle_cmds adreno_dev);;
  (if negb (perfcounter adreno_dev) then
     emit (cp_type7_packet CP_WAIT_REG_MEM 6);;
     emit 3;;
     emit A6XX_RBBM_PERFCTR_SRAM_INIT_STATUS;;
     emit 0;;
     emit 1;;
     emit 1;;
     emit 0
   else mret tt);;
  cmds ← cursor;
  mret (cmds - cmds_orig)%nat.

Definition adreno_iommu_set_pt_generate_cmds (rb : adreno_ringbuffer)
    (pt : kgsl_pagetable) : Gen nat :=
  let adreno_dev := ADRENO_RB_DEVICE rb in
  let device := KGSL_DEVICE adreno_dev in
  let iommu := KGSL_IOMMU_PRIV device in
  let ctx := ctx iommu KGSL_IOMMU_CONTEXT_USER in
  cmds_orig ← cursor;
  let ttbr0 := kgsl_mmu_pagetable_get_ttbr0 pt in
  let contextidr := kgsl_mmu_pagetable_get_contextidr pt in
  advance (adreno_iommu_set_apriv adreno_dev 1);;
  advance (_adreno_iommu_add_idle_indirect_cmds adreno_dev
             (add_u64 (setstate_gpuaddr iommu) KGSL_IOMMU_SETSTATE_NOP_OFFSET));;
  advance (_adreno_iommu_set_pt_v2_a6xx adreno_dev ttbr0 contextidr rb (cb_num ctx));;
  advance (cp_invalidate_state adreno_dev);;
  advance (adreno_iommu_set_apriv adreno_dev 0);;
  cmds ← cursor;
  mret (cmds - cmds_orig)%nat.

Definition __add_curr_ctxt_cmds (rb : adreno_ringbuffer)
    (drawctxt : option adreno_context) : Gen nat :=
  let adreno_dev := ADRENO_RB_DEVICE rb in
  let device := KGSL_DEVICE adreno_dev in
  cmds_orig ← cursor;
  advance (cp_identifier adreno_dev CONTEXT_TO_MEM_IDENTIFIER);;
  emit (cp_mem_packet adreno_dev CP_MEM_WRITE 2 1);;
  advance (cp_gpuaddr adreno_dev (MEMSTORE_RB_GPU_ADDR device rb current_context));;
  emit (match drawctxt with Some c => base_id c | None => 0 end);;
  emit (cp_mem_packet adreno_dev CP_MEM_WRITE 2 1);;
  advance (cp_gpuaddr adreno_dev
             (MEMSTORE_ID_GPU_ADDR device KGSL_MEMSTORE_GLOBAL current_context));;
  emit (match drawctxt with Some c => base_id c | None => 0 end);;
  emit (cp_packet adreno_dev CP_EVENT_WRITE 1);;
  emit 49;;
  cmds ← cursor;
  mret (cmds - cmds_orig)%nat.

End Generators.

(** ** The kernel around the generators

    The ring-buffer transport, the allocator and the log are collaborators
    of this file.  What they do is recorded in a [world]: every buffer handed
    to the transport, every warning logged, the number of transient buffers
    currently allocated.  What they answer is an oracle carried by the
    world: whether the next allocation fails, and the result the transport
    returns for a submission given the submissions before it. *)

Record submission := {
  sub_rb : adreno_ringbuffer;
  sub_flags : Z;
  sub_words : list (option word);   (* the [count] words read from [link] *)
  sub_count : nat
}.

Record world := {
  kmalloc_fails : bool;
  transport : list submission → submission → Z;
  issued : list submission;
  warnings : list string;
  allocated : nat
}.

Definition Kern := State world.

Definition sizeof_unsigned_int : Z := 4.

(** [kmalloc(size, GFP_KERNEL)]: [None] is the NULL pointer. *)
Definition kmalloc (size : Z) : Kern (option cmdbuf) := λ w,
  if kmalloc_fails w then (None, w)
  else (Some (fresh_buf (Z.to_nat (size / sizeof_unsigned_int))),
        {| kmalloc_fails := kmalloc_fails w; transport := transport w;
           issued := issued w; warnings := warnings w;
           allocated := S (allocated w) |}).

Definition kfree : Kern unit := λ w,
  (tt, {| kmalloc_fails := kmalloc_fails w; transport := transport w;
          issued := issued w; warnings := warnings w;
          allocated := pred (allocated w) |}).

(** [WARN(cond, msg)]: logs [msg] when [cond] holds, and nothing else. *)
Definition WARN (cond : bool) (msg : string) : Kern unit := λ w,
  (tt, if cond then
         {| kmalloc_fails := kmalloc_fails w; transport := transport w;
            issued := issued w; warnings := warnings w ++ [msg];
            allocated := allocated w |}
       else w).

Definition adreno_ringbuffer_issue_internal_cmds (rb : adreno_ringbuffer)
    (flags : Z) (link : cmdbuf) (count : nat) : Kern Z := λ w,
  let s := {| sub_rb := rb; sub_flags := flags;
              sub_words := read_words link 0 count; sub_count := count |} in
  (transport w (issued w) s,
   {| kmalloc_fails := kmalloc_fails w; transport := transport w;
      issued := issued w ++ [s]; warnings := warnings w;
      allocated := allocated w |}).

Definition overflow_message : string :=
  "Temp command buffer overflow" +:+ String (Ascii.ascii_of_nat 10) EmptyString.

Section EntryPoints.
Context `{H : Headers}.

Definition _set_ctxt_gpu (rb : adreno_ringbuffer)
    (drawctxt : option adreno_context) : Kern Z :=
  let link := fresh_buf 15 in
  let cmds := pos link in
  let '(n, link') := __add_curr_ctxt_cmds rb drawctxt link in
  let cmds := (cmds + n)%nat in
  result ← adreno_ringbuffer_issue_internal_cmds rb 0 link' (cmds - pos link)%nat;
  mret result.

Definition _set_pagetable_gpu (rb : adreno_ringbuffer)
    (new_pt : kgsl_pagetable) : Kern Z :=
  let adreno_dev := ADRENO_RB_DEVICE rb in
  link ← kmalloc PAGE_SIZE;
  match link with
  | None => mret (- ENOMEM)
  | Some link =>
      if test_bit ADRENO_DEVICE_FAULT (priv adreno_dev) then
        kfree;;
        mret 0
      else
        let '(count, link') := adreno_iommu_set_pt_generate_cmds rb new_pt link in
        WARN (bool_decide (Z.of_nat count > PAGE_SIZE / sizeof_unsigned_int))
             overflow_message;;
        result ← adreno_ringbuffer_issue_internal_cmds rb KGSL_CMD_FLAGS_PMODE
                   link' count;
        kfree;;
        mret result
  end.

Definition adreno_iommu_set_pt_ctx (rb : adreno_ringbuffer)
    (new_pt : kgsl_pagetable) (drawctxt : option adreno_context) : Kern Z :=
  let adreno_dev := ADRENO_RB_DEVICE rb in
  let device := KGSL_DEVICE adreno_dev in
  let cur_pt := mmu_defaultpagetable device in
  let result := 0 in
  if negb (kgsl_mmu_get_mmutype device =? KGSL_MMU_TYPE_NONE) then
    let cur_pt := match drawctxt_active rb with
                  | Some active => base_proc_priv_pagetable active
                  | None => cur_pt
                  end in
    result ← (if negb (new_pt =? cur_pt) then _set_pagetable_gpu rb new_pt
              else mret result);
    if int_true result then mret result
    else _set_ctxt_gpu rb drawctxt
  else _set_ctxt_gpu rb drawctxt.

(** The pagetable the ring buffer currently runs on: the active draw
    context's, or the default one when no context is active. *)
Definition active_pagetable (rb : adreno_ringbuffer) : kgsl_pagetable :=
  match drawctxt_active rb with
  | Some active => base_proc_priv_pagetable active
  | None => mmu_defaultpagetable (KGSL_DEVICE (ADRENO_RB_DEVICE rb))
  end.

End EntryPoints.

(** ** The sequences as the specification words them

    Each list below is a sub-sequence of the specification, written in the
    specification's order; the theorems compare them with what the
    generators above store. *)

Section Sequences.
Context `{H : Headers}.

(** Privilege toggler: nothing on a variant with native privilege; otherwise
    wait-for-idle, wait-for-me, and a register write of 1 (raise) or 0
    (lower) to the privilege control register. *)
Definition privilege_words (adreno_dev : adreno_device) (raise : bool) : list word :=
  if ADRENO_FEATURE adreno_dev ADRENO_APRIV then []
  else wait_for_idle_pkt adreno_dev ++ wait_for_me_pkt adreno_dev ++
       [cp_register adreno_dev (adreno_getreg adreno_dev ADRENO_REG_CP_CNTL) 1;
        if raise then 1 else 0].

(** Prefetch stall: wait-for-me, an indirect-buffer jump to the 2-word no-op
    region, wait-for-idle. *)
Definition prefetch_stall_words (adreno_dev : adreno_device) (nop_gpuaddr : Z)
    : list word :=
  wait_for_me_pkt adreno_dev ++
  [cp_mem_packet adreno_dev CP_INDIRECT_BUFFER_PFE 2 1] ++
  gpuaddr_pkt adreno_dev nop_gpuaddr ++ [2] ++
  wait_for_idle_pkt adreno_dev.

(** Register write setting the SRAM-init command register to 1. *)
Definition perfctr_reset_words : list word :=
  [cp_type4_packet A6XX_RBBM_PERFCTR_SRAM_INIT_CMD 1; 1].

(** Wait-on-memory-register polling the SRAM-init status register for 1. *)
Definition perfctr_wait_words : list word :=
  [cp_type7_packet CP_WAIT_REG_MEM 6; 3; A6XX_RBBM_PERFCTR_SRAM_INIT_STATUS;
   0; 1; 1; 0].

(** The 4-payload SMMU table update. *)
Definition table_update_words (adreno_dev : adreno_device)
    (ttbr0 contextidr cb_num : Z) : list word :=
  [cp_packet adreno_dev CP_SMMU_TABLE_UPDATE 4;
   lower_32_bits ttbr0; upper_32_bits ttbr0; contextidr; cb_num].

(** The memory write to the ring buffer's pagetable-info shadow. *)
Definition shadow_write_words (adreno_dev : adreno_device)
    (ttbr0 contextidr : Z) (rb : adreno_ringbuffer) : list word :=
  [cp_mem_packet adreno_dev CP_MEM_WRITE 4 1] ++
  gpuaddr_pkt adreno_dev (add_u64 (pagetable_desc_gpuaddr rb) PT_INFO_OFFSET_ttbr0) ++
  [lower_32_bits ttbr0; upper_32_bits ttbr0; contextidr].

(** Variant-v2 pagetable switch, steps 1 to 6. *)
Definition pagetable_switch_words (adreno_dev : adreno_device)
    (ttbr0 contextidr : Z) (rb : adreno_ringbuffer) (cb_num : Z) : list word :=
  wait_for_idle_pkt adreno_dev ++
  wait_for_me_pkt adreno_dev ++
  (if perfcounter adreno_dev then [] else perfctr_reset_words) ++
  table_update_words adreno_dev ttbr0 contextidr cb_num ++
  shadow_write_words adreno_dev ttbr0 contextidr rb ++
  wait_for_me_pkt adreno_dev ++
  wait_for_idle_pkt adreno_dev ++
  (if perfcounter adreno_dev then [] else perfctr_wait_words).

(** Context record storing [id] to both tracking locations. *)
Definition context_record_words (rb : adreno_ringbuffer) (id : Z) : list word :=
  let adreno_dev := ADRENO_RB_DEVICE rb in
  let device := KGSL_DEVICE adreno_dev in
  identifier_pkt adreno_dev CONTEXT_TO_MEM_IDENTIFIER ++
  [cp_mem_packet adreno_dev CP_MEM_WRITE 2 1] ++
  gpuaddr_pkt adreno_dev (MEMSTORE_RB_GPU_ADDR device rb current_context) ++
  [id] ++
  [cp_mem_packet adreno_dev CP_MEM_WRITE 2 1] ++
  gpuaddr_pkt adreno_dev
    (MEMSTORE_ID_GPU_ADDR device KGSL_MEMSTORE_GLOBAL current_context) ++
  [id] ++
  [cp_packet adreno_dev CP_EVENT_WRITE 1; 49].

(** The identifier a context record carries for a context argument. *)
Definition context_id (drawctxt : option adreno_context) : Z :=
  match drawctxt with
  | Some c => base_id c
  | None => 0
  end.

(** The five parts of a switch sequence for ring buffer [rb] and target
    pagetable [pt]. *)
Definition raise_part (rb : adreno_ringbuffer) : list word :=
  privilege_words (ADRENO_RB_DEVICE rb) true.
Definition stall_part (rb : adreno_ringbuffer) : list word :=
  let iommu := KGSL_IOMMU_PRIV (KGSL_DEVICE (ADRENO_RB_DEVICE rb)) in
  prefetch_stall_words (ADRENO_RB_DEVICE rb)
    (add_u64 (setstate_gpuaddr iommu) KGSL_IOMMU_SETSTATE_NOP_OFFSET).
Definition switch_part (rb : adreno_ringbuffer) (pt : kgsl_pagetable) : list word :=
  let iommu := KGSL_IOMMU_PRIV (KGSL_DEVICE (ADRENO_RB_DEVICE rb)) in
  pagetable_switch_words (ADRENO_RB_DEVICE rb)
    (kgsl_mmu_pagetable_get_ttbr0 pt) (kgsl_mmu_pagetable_get_contextidr pt)
    rb (cb_num (ctx iommu KGSL_IOMMU_CONTEXT_USER)).
Definition invalidate_part (rb : adreno_ringbuffer) : list word :=
  invalidate_state_pkt (ADRENO_RB_DEVICE rb).
Definition lower_part (rb : adreno_ringbuffer) : list word :=
  privilege_words (ADRENO_RB_DEVICE rb) false.

Definition switch_sequence_words (rb : adreno_ringbuffer) (pt : kgsl_pagetable)
    : list word :=
  raise_part rb ++ stall_part rb ++ switch_part rb pt ++
  invalidate_part rb ++ lower_part rb.

(** A buffer of fully initialised words as the transport receives it. *)
Definition submission_of (rb : adreno_ringbuffer) (flags : Z) (ws : list word)
    : submission :=
  {| sub_rb := rb; sub_flags := flags;
     sub_words := Some <$> ws; sub_count := length ws |}.

Definition context_record_submission (rb : adreno_ringbuffer)
    (drawctxt : option adreno_context) : submission :=
  submission_of rb 0 (context_record_words rb (context_id drawctxt)).

Definition pagetable_switch_submission (rb : adreno_ringbuffer)
    (pt : kgsl_pagetable) : submission :=
  submission_of rb KGSL_CMD_FLAGS_PMODE (switch_sequence_words rb pt).

End Sequences.

(** The world after one more submission. *)
Definition submit (s : submission) (w : world) : world :=
  {| kmalloc_fails := kmalloc_fails w; transport := transport w;
     issued := issued w ++ [s]; warnings := warnings w;
     allocated := allocated w |}.

(** The world after one more warning. *)
Definition warn (msg : string) (w : world) : world :=
  {| kmalloc_fails := kmalloc_fails w; transport := transport w;
     issued := issued w; warnings := warnings w ++ [msg];
     allocated := allocated w |}.

(** ** What a generator stores

    [writes g ws]: from any buffer state, [g] stores exactly the words [ws]
    through [cmds], in order, and returns their number. *)

Definition writes (g : Gen nat) (ws : list word) : Prop :=
  ∀ b, g b = (length ws, store_words ws b).

(** The same for a statement of a generator's body. *)
Definition stores (g : Gen unit) (ws : list word) : Prop :=
  ∀ b, g b = (tt, store_words ws b).

(** The rest of a body whose [cmds_orig] is [o]: stores [ws] and returns
    the distance of the final [cmds] from [o]. *)
Definition finishes (k : Gen nat) (o : nat) (ws : list word) : Prop :=
  ∀ b, k b = ((pos b + length ws - o)%nat, store_words ws b).

(** ** A concrete configuration *)

Module Scenario.

(** Modelled from the spec: the packet encoding, register map and kernel
    constants of the included headers, which are not among the sources.
    Per §6 a command is a header word carrying an opcode class, a packet or
    register identifier and a payload count, followed by its payload, and a
    GPU address is stored as its low and high halves; per §8 an idle-wait
    and a cp-wait are one word each, the base-pointer invalidate is one
    header word and the cache-invalidate event is two words.  Opcodes,
    register numbers and offsets are sample values.  [page_size] is the
    size in bytes of the transient buffer. *)
Definition headers (page_size : Z) : Headers :=
  let type4 := λ reg cnt : Z,
    Z.lor 1073741824 (Z.lor (Z.shiftl (Z.land reg 262143) 8) cnt) in
  let type7 := λ opcode cnt : Z,
    Z.lor 1879048192 (Z.lor (Z.shiftl (Z.land opcode 127) 16) cnt) in
  {| cp_type4_packet := type4;
     cp_type7_packet := type7;
     cp_packet := λ _ opcode size, type7 opcode size;
     cp_mem_packet := λ _ opcode size num_mem, type7 opcode (size + num_mem);
     cp_register := λ _ reg size, type4 reg size;
     wait_for_idle_pkt := λ _, [type7 38 0];
     wait_for_me_pkt := λ _, [type7 19 0];
     gpuaddr_pkt := λ _ gpuaddr, [lower_32_bits gpuaddr; upper_32_bits gpuaddr];
     invalidate_state_pkt := λ _, [type7 67 0];
     identifier_pkt := λ _ id, [type7 16 1; id];
     CP_INDIRECT_BUFFER_PFE := 63;
     CP_SMMU_TABLE_UPDATE := 83;
     CP_MEM_WRITE := 61;
     CP_WAIT_REG_MEM := 60;
     CP_EVENT_WRITE := 70;
     CONTEXT_TO_MEM_IDENTIFIER := 2147483647;
     A6XX_RBBM_PERFCTR_SRAM_INIT_CMD := 1294;
     A6XX_RBBM_PERFCTR_SRAM_INIT_STATUS := 1295;
     ADRENO_REG_CP_CNTL := 0;
     adreno_getreg := λ _ offset, 2116 + offset;
     ADRENO_APRIV := 131072;
     ADRENO_FEATURE := λ adreno_dev bit,
       negb (Z.land (gpucore_features adreno_dev) bit =? 0);
     ADRENO_DEVICE_FAULT := 5;
     PT_INFO_OFFSET_ttbr0 := 8;
     KGSL_IOMMU_CONTEXT_USER := 0;
     KGSL_IOMMU_SETSTATE_NOP_OFFSET := 1024;
     KGSL_CMD_FLAGS_PMODE := 1;
     KGSL_MEMSTORE_GLOBAL := 0;
     KGSL_MMU_TYPE_NONE := 1;
     MEMSTORE_RB_GPU_ADDR := λ device rb _,
       add_u64 (memstore_gpuaddr device) ((rb_id rb + 1) * 40 + 32);
     MEMSTORE_ID_GPU_ADDR := λ device id _,
       add_u64 (memstore_gpuaddr device) (id * 40 + 32);
     kgsl_mmu_get_mmutype := mmu_type;
     kgsl_mmu_pagetable_get_ttbr0 := λ pt, Z.shiftl pt 12;
     kgsl_mmu_pagetable_get_contextidr := λ pt, Z.land pt 255;
     PAGE_SIZE := page_size;
     ENOMEM := 12 |}.

(** A 4096-byte page, and a 64-byte one that a switch sequence overruns. *)
Definition page_4k : Headers := headers 4096.
Definition page_64 : Headers := headers 64.

Definition device (mmutype : Z) : kgsl_device :=
  {| mmu_type := mmutype;
     mmu_defaultpagetable := 1;
     mmu_iommu := {| setstate_gpuaddr := 4227858432;
                     ctx := λ _, {| cb_num := 0 |} |};
     memstore_gpuaddr := 4229955584 |}.

(** A device with an IOMMU, by feature bits, counter state and flag word. *)
Definition gpu (features : Z) (counters : bool) (flags : Z) : adreno_device :=
  {| dev := device 0; gpucore_features := features;
     perfcounter := counters; priv := flags |}.

Definition gpu_without_mmu : adreno_device :=
  {| dev := device 1; gpucore_features := 0;
     perfcounter := true; priv := 0 |}.

(** Context 7 of a process whose pagetable is pagetable 2. *)
Definition context7 : adreno_context :=
  {| base_id := 7; base_proc_priv_pagetable := 2 |}.

Definition ring (adreno_dev : adreno_device) (active : option adreno_context)
    : adreno_ringbuffer :=
  {| rb_device := adreno_dev; rb_id := 0; drawctxt_active := active;
     pagetable_desc_gpuaddr := 4232052736 |}.

(** Counters active, no native privilege, not in fault, nothing active. *)
Definition plain_ring : adreno_ringbuffer := ring (gpu 0 true 0) None.
(** The same with the fault bit (bit 5) raised. *)
Definition faulted_ring : adreno_ringbuffer := ring (gpu 0 true 32) None.
(** Native privilege. *)
Definition apriv_ring : adreno_ringbuffer := ring (gpu 131072 true 0) None.
(** Context 7 active, so the ring buffer runs on pagetable 2. *)
Definition busy_ring : adreno_ringbuffer := ring (gpu 0 true 0) (Some context7).
(** No MMU attached. *)
Definition bare_ring : adreno_ringbuffer := ring gpu_without_mmu None.

(** A world where allocation succeeds and the transport accepts everything. *)
Definition calm : world :=
  {| kmalloc_fails := false; transport := λ _ _, 0;
     issued := []; warnings := []; allocated := 0 |}.

(** A world out of memory. *)
Definition exhausted : world :=
  {| kmalloc_fails := true; transport := λ _ _, 0;
     issued := []; warnings := []; allocated := 0 |}.

(** A world whose transport rejects protected-mode submissions with -5. *)
Definition rejecting : world :=
  {| kmalloc_fails := false;
     transport := λ _ s, if sub_flags s =? 1 then -5 else 0;
     issued := []; warnings := []; allocated := 0 |}.

End Scenario.

(** ** Device initialisation

    [adreno_iommu_init] stores the no-op packet that the prefetch stall
    jumps to.  [kgsl_sharedmem_writel] belongs to the kgsl memory layer; what
    it is asked to do is recorded as a log of writes, each to a byte offset
    of a shared buffer named by its GPU address. *)



Section Init.
Context `{H : Headers}.
(** The no-op opcode of [adreno_pm4types.h]. *)
Variable CP_NOP : Z.


(** Sizes of the stored-word helpers on device [adreno_dev]: a wait takes at
    most two words, a GPU address at most two, the base-pointer invalidate
    at most four. *)
Definition compact_encoding (adreno_dev : adreno_device) : Prop :=
  (length (wait_for_idle_pkt adreno_dev) ≤ 2)%nat ∧
  (length (wait_for_me_pkt adreno_dev) ≤ 2)%nat ∧
  (∀ gpuaddr, length (gpuaddr_pkt adreno_dev gpuaddr) ≤ 2)%nat ∧
  (length (invalidate_state_pkt adreno_dev) ≤ 4)%nat.

End Init.

(** * Properties *)

(** ** Buffers *)

Lemma store_words_app ws1 ws2 b :
  store_words (ws1 ++ ws2) b = store_words ws2 (store_words ws1 b).
Proof. revert b. induction ws1 as [|w ws1 IH]; intros b; simpl; [done|apply IH]. Qed.

Lemma pos_store_words ws b : pos (store_words ws b) = (pos b + length ws)%nat.
Proof.
  revert b. induction ws as [|w ws IH]; intros b; simpl; [lia|].
  rewrite IH. simpl. lia.
Qed.

Lemma capacity_store_words ws b : capacity (store_words ws b) = capacity b.
Proof. revert b. induction ws as [|w ws IH]; intros b; simpl; [done|by rewrite IH]. Qed.

(** Cells below [cmds] are left alone. *)
Lemma cells_store_words_below ws b i :
  (i < pos b)%nat → cells (store_words ws b) !! i = cells b !! i.
Proof.
  revert b. induction ws as [|w ws IH]; intros b Hi; simpl; [done|].
  rewrite IH by (simpl; lia). simpl. apply lookup_insert_ne. lia.
Qed.

(** The [i]-th word stored lands [i] cells after [cmds]. *)
Lemma cells_store_words_at ws b i :
  (i < length ws)%nat → cells (store_words ws b) !! (pos b + i)%nat = ws !! i.
Proof.
  revert b i. induction ws as [|w ws IH]; intros b i Hi; simpl in *; [lia|].
  destruct i as [|i].
  - rewrite cells_store_words_below by (simpl; lia). simpl.
    rewrite Nat.add_0_r. apply lookup_insert_eq.
  - replace (pos b + S i)%nat with (pos (store_word w b) + i)%nat by (simpl; lia).
    apply IH. lia.
Qed.

(** Cells at or past the final [cmds] are left alone. *)
Lemma cells_store_words_above ws b i :
  (pos b + length ws ≤ i)%nat → cells (store_words ws b) !! i = cells b !! i.
Proof.
  revert b. induction ws as [|w ws IH]; intros b Hi; simpl in *; [done|].
  rewrite IH by (simpl; lia). simpl. apply lookup_insert_ne. lia.
Qed.

(** Reading back what was just stored: every word is initialised. *)
Lemma read_store_words ws b :
  read_words (store_words ws b) (pos b) (length ws) = Some <$> ws.
Proof.
  apply list_eq. intros i. unfold read_words.
  rewrite !list_lookup_fmap.
  destruct (decide (i < length ws)%nat) as [Hi|Hi].
  - rewrite lookup_seq_lt by done. simpl.
    rewrite cells_store_words_at by done.
    by destruct (lookup_lt_is_Some_2 ws i Hi) as [x ->].
  - rewrite lookup_seq_ge by lia. by rewrite lookup_ge_None_2 by lia.
Qed.

(** The store past the allocation is flagged exactly when the last word
    stored lies past it. *)
Lemma overrun_store_words ws b :
  overrun (store_words ws b)
  = overrun b || bool_decide (ws ≠ [] ∧ capacity b < pos b + length ws)%nat.
Proof.
  revert b. induction ws as [|w ws IH]; intros b.
  - simpl. by rewrite orb_false_r.
  - change (store_words (w :: ws) b) with (store_words ws (store_word w b)).
    rewrite IH. cbn [overrun capacity pos store_word length].
    rewrite <- orb_assoc. f_equal.
    repeat case_bool_decide; simpl in *; try done;
      exfalso; destruct ws; simpl in *; intuition (congruence || lia).
Qed.

(** The cells written by [ws] from a fresh buffer are exactly the first
    [length ws] ones. *)
Lemma dom_store_words_fresh ws n :
  dom (cells (store_words ws (fresh_buf n))) = (set_seq 0 (length ws) : gset nat).
Proof.
  apply set_eq. intros i. rewrite elem_of_dom, elem_of_set_seq.
  destruct (decide (i < length ws)%nat) as [Hi|Hi].
  - pose proof (cells_store_words_at ws (fresh_buf n) i Hi) as E.
    simpl in E. rewrite E. split; [lia|]. intros _. by apply lookup_lt_is_Some_2.
  - rewrite cells_store_words_above by (simpl; lia). simpl.
    rewrite lookup_empty. split; [by intros [? ?]|lia].
Qed.

(** ** A calculus for generator bodies *)

Create HintDb gen.

Lemma writes_eq g ws ws' : writes g ws → ws = ws' → writes g ws'.
Proof. by intros Hg <-. Qed.

Lemma stores_emit w : stores (emit w) [w].
Proof. by intros b. Qed.

Lemma stores_skip : stores (mret tt) [].
Proof. by intros b. Qed.

Lemma stores_advance g ws : writes g ws → stores (advance g) ws.
Proof.
  intros Hg b. unfold advance. rewrite Hg. f_equal.
  pose proof (pos_store_words ws b) as Hp.
  destruct (store_words ws b); simpl in *. by rewrite Hp.
Qed.

Lemma stores_seq (g1 g2 : Gen unit) ws1 ws2 :
  stores g1 ws1 → stores g2 ws2 → stores (g1;; g2) (ws1 ++ ws2).
Proof.
  intros H1 H2 b. unfold mbind, state_bind. rewrite H1, H2.
  by rewrite store_words_app.
Qed.

Lemma stores_if (c : bool) (g1 g2 : Gen unit) ws1 ws2 :
  stores g1 ws1 → stores g2 ws2 →
  stores (if c then g1 else g2) (if c then ws1 else ws2).
Proof. by destruct c. Qed.

Lemma finishes_end o : finishes (cmds ← cursor; mret (cmds - o)%nat) o [].
Proof. intros b. unfold mbind, state_bind, cursor, mret, state_ret. simpl. f_equal. lia. Qed.

Lemma finishes_step (g : Gen unit) (k : Gen nat) o ws1 ws2 :
  stores g ws1 → finishes k o ws2 → finishes (g;; k) o (ws1 ++ ws2).
Proof.
  intros Hg Hk b. unfold mbind, state_bind. rewrite Hg, Hk.
  rewrite store_words_app, pos_store_words, length_app. f_equal. lia.
Qed.

Lemma writes_body (k : nat → Gen nat) ws :
  (∀ o, finishes (k o) o ws) → writes (o ← cursor; k o) ws.
Proof.
  intros Hk b. unfold mbind, state_bind, cursor. rewrite Hk. f_equal. lia.
Qed.

#[local] Hint Resolve stores_emit stores_skip stores_advance stores_seq
  stores_if : gen.

(** Walks a body statement by statement. *)
Ltac gen_body :=
  apply writes_body; intros ?;
  repeat (eapply finishes_step; [solve [eauto 12 with gen]|]);
  apply finishes_end.

(** ** What each generator stores *)

Section GeneratorFacts.
Context `{H : Headers}.

Lemma writes_store_pkt ws : writes (store_pkt ws) ws.
Proof. by intros b. Qed.

Lemma writes_cp_wait_for_idle adreno_dev :
  writes (cp_wait_for_idle adreno_dev) (wait_for_idle_pkt adreno_dev).
Proof. apply writes_store_pkt. Qed.

Lemma writes_cp_wait_for_me adreno_dev :
  writes (cp_wait_for_me adreno_dev) (wait_for_me_pkt adreno_dev).
Proof. apply writes_store_pkt. Qed.

Lemma writes_cp_gpuaddr adreno_dev gpuaddr :
  writes (cp_gpuaddr adreno_dev gpuaddr) (gpuaddr_pkt adreno_dev gpuaddr).
Proof. apply writes_store_pkt. Qed.

Lemma writes_cp_invalidate_state adreno_dev :
  writes (cp_invalidate_state adreno_dev) (invalidate_state_pkt adreno_dev).
Proof. apply writes_store_pkt. Qed.

Lemma writes_cp_identifier adreno_dev id :
  writes (cp_identifier adreno_dev id) (identifier_pkt adreno_dev id).
Proof. apply writes_store_pkt. Qed.

#[local] Hint Resolve writes_cp_wait_for_idle writes_cp_wait_for_me
  writes_cp_gpuaddr writes_cp_invalidate_state writes_cp_identifier : gen.

Lemma writes_add_idle_cmds adreno_dev :
  writes (_adreno_iommu_add_idle_cmds adreno_dev) (wait_for_idle_pkt adreno_dev).
Proof.
  eapply writes_eq; [unfold _adreno_iommu_add_idle_cmds; gen_body|].
  apply app_nil_r.
Qed.

Lemma writes_set_apriv adreno_dev set :
  writes (adreno_iommu_set_apriv adreno_dev set)
         (privilege_words adreno_dev (int_true set)).
Proof.
  unfold adreno_iommu_set_apriv, privilege_words.
  destruct (ADRENO_FEATURE adreno_dev ADRENO_APRIV).
  - by intros b.
  - eapply writes_eq; [gen_body|].
    by destruct (int_true set).
Qed.

Lemma writes_add_idle_indirect_cmds adreno_dev nop_gpuaddr :
  writes (_adreno_iommu_add_idle_indirect_cmds adreno_dev nop_gpuaddr)
         (prefetch_stall_words adreno_dev nop_gpuaddr).
Proof.
  eapply writes_eq; [unfold _adreno_iommu_add_idle_indirect_cmds; gen_body|].
  unfold prefetch_stall_words. by rewrite app_nil_r.
Qed.

#[local] Hint Resolve writes_add_idle_cmds writes_set_apriv
  writes_add_idle_indirect_cmds : gen.

Lemma writes_set_pt_v2_a6xx adreno_dev ttbr0 contextidr rb cb_num :
  writes (_adreno_iommu_set_pt_v2_a6xx adreno_dev ttbr0 contextidr rb cb_num)
         (pagetable_switch_words adreno_dev ttbr0 contextidr rb cb_num).
Proof.
  eapply writes_eq; [unfold _adreno_iommu_set_pt_v2_a6xx; gen_body|].
  unfold pagetable_switch_words, table_update_words, shadow_write_words,
    perfctr_reset_words, perfctr_wait_words.
  destruct (perfcounter adreno_dev); simpl;
    rewrite ?app_nil_r, <- ?app_assoc; simpl; reflexivity.
Qed.

Lemma writes_add_curr_ctxt_cmds rb drawctxt :
  writes (__add_curr_ctxt_cmds rb drawctxt)
         (context_record_words rb (context_id drawctxt)).
Proof.
  eapply writes_eq; [unfold __add_curr_ctxt_cmds; gen_body|].
  unfold context_record_words, context_id. simpl.
  rewrite <- ?app_assoc. simpl. reflexivity.
Qed.

#[local] Hint Resolve writes_set_pt_v2_a6xx : gen.

Lemma writes_generate_cmds rb pt :
  writes (adreno_iommu_set_pt_generate_cmds rb pt) (switch_sequence_words rb pt).
Proof.
  eapply writes_eq; [unfold adreno_iommu_set_pt_generate_cmds; gen_body|].
  unfold switch_sequence_words, raise_part, stall_part, switch_part,
    invalidate_part, lower_part.
  by rewrite app_nil_r.
Qed.

(** A switch sequence is never empty: the prefetch stall alone has two
    words of its own. *)
Lemma switch_sequence_nonempty rb pt :
  (0 < length (switch_sequence_words rb pt))%nat.
Proof.
  unfold switch_sequence_words, stall_part, prefetch_stall_words.
  rewrite !length_app. simpl. lia.
Qed.

End GeneratorFacts.

(** ** The entry points *)

Section EntryPointFacts.
Context `{H : Headers}.

(** The context-record helper makes exactly one submission: the context
    record, unprivileged, fully initialised. *)
Lemma set_ctxt_gpu_run rb drawctxt w :
  _set_ctxt_gpu rb drawctxt w =
    (transport w (issued w) (context_record_submission rb drawctxt),
     submit (context_record_submission rb drawctxt) w).
Proof.
  unfold _set_ctxt_gpu. rewrite writes_add_curr_ctxt_cmds.
  unfold mbind, state_bind, adreno_ringbuffer_issue_internal_cmds, mret, state_ret.
  cbn [pos fresh_buf].
  replace (0 + length (context_record_words rb (context_id drawctxt)) - 0)%nat
    with (length (context_record_words rb (context_id drawctxt))) by lia.
  pose proof (read_store_words (context_record_words rb (context_id drawctxt))
                (fresh_buf 15)) as Hr.
  cbn [pos fresh_buf] in Hr. rewrite Hr. reflexivity.
Qed.

(** Allocation failure comes first. *)
Lemma set_pagetable_gpu_nomem rb new_pt w :
  kmalloc_fails w = true → _set_pagetable_gpu rb new_pt w = (- ENOMEM, w).
Proof.
  intros Hm. unfold _set_pagetable_gpu, mbind, state_bind, kmalloc.
  by rewrite Hm.
Qed.

(** In a fault the buffer is released again and nothing else happens. *)
Lemma set_pagetable_gpu_fault rb new_pt w :
  kmalloc_fails w = false →
  test_bit ADRENO_DEVICE_FAULT (priv (ADRENO_RB_DEVICE rb)) = true →
  _set_pagetable_gpu rb new_pt w = (0, w).
Proof.
  intros Hm Hf. unfold _set_pagetable_gpu, mbind, state_bind, kmalloc.
  rewrite Hm, Hf. destruct w; simpl in *. by subst.
Qed.

(** Otherwise the switch sequence is submitted in protected mode, after a
    warning when its length exceeds the page. *)
Lemma set_pagetable_gpu_run rb new_pt w :
  kmalloc_fails w = false →
  test_bit ADRENO_DEVICE_FAULT (priv (ADRENO_RB_DEVICE rb)) = false →
  _set_pagetable_gpu rb new_pt w =
    let s := pagetable_switch_submission rb new_pt in
    let w1 := if bool_decide (Z.of_nat (length (switch_sequence_words rb new_pt))
                              > PAGE_SIZE / sizeof_unsigned_int)
              then warn overflow_message w else w in
    (transport w (issued w) s, submit s w1).
Proof.
  intros Hm Hf. unfold _set_pagetable_gpu, mbind, state_bind, kmalloc.
  rewrite Hm, Hf. rewrite writes_generate_cmds.
  pose proof (read_store_words (switch_sequence_words rb new_pt)
    (fresh_buf (Z.to_nat (PAGE_SIZE / sizeof_unsigned_int)))) as Hr.
  cbn [pos fresh_buf] in Hr.
  unfold adreno_ringbuffer_issue_internal_cmds, WARN, kfree, mret, state_ret.
  cbn zeta.
  case_bool_decide; cbn [issued transport warnings allocated kmalloc_fails];
    rewrite Hr; destruct w; simpl in Hm; subst; reflexivity.
Qed.

(** The top-level entry point, by whether a switch is needed. *)
Lemma set_pt_ctx_unfold rb new_pt drawctxt w :
  adreno_iommu_set_pt_ctx rb new_pt drawctxt w =
    if negb (kgsl_mmu_get_mmutype (KGSL_DEVICE (ADRENO_RB_DEVICE rb))
             =? KGSL_MMU_TYPE_NONE)
       && negb (new_pt =? active_pagetable rb)
    then let '(r, w1) := _set_pagetable_gpu rb new_pt w in
         if int_true r then (r, w1) else _set_ctxt_gpu rb drawctxt w1
    else _set_ctxt_gpu rb drawctxt w.
Proof.
  unfold adreno_iommu_set_pt_ctx, active_pagetable, mbind, state_bind.
  destruct (negb (_ =? KGSL_MMU_TYPE_NONE)); [|done]. cbn [andb].
  destruct (negb _); [|done].
  destruct (_set_pagetable_gpu rb new_pt w) as [r w1].
  by destruct (int_true r).
Qed.

End EntryPointFacts.

(** The scenario of the specification's section 8 (counters active, no
    native privilege, context 7): a 4-word raise, a 6-word stall, a 15-word
    switch, a 1-word invalidate and a 4-word lower; separately a 12-word
    context record storing 7 twice. *)
Example scenario_word_counts :
  (length <$> [@raise_part Scenario.page_4k Scenario.plain_ring;
               @stall_part Scenario.page_4k Scenario.plain_ring;
               @switch_part Scenario.page_4k Scenario.plain_ring 2;
               @invalidate_part Scenario.page_4k Scenario.plain_ring;
               @lower_part Scenario.page_4k Scenario.plain_ring])
  = [4; 6; 15; 1; 4]%nat
  ∧ fst (@adreno_iommu_set_pt_generate_cmds Scenario.page_4k
           Scenario.plain_ring 2 (fresh_buf 1024)) = 30%nat
  ∧ fst (@__add_curr_ctxt_cmds Scenario.page_4k Scenario.plain_ring
           (Some Scenario.context7) (fresh_buf 15)) = 12%nat.
Proof. split_and!; vm_compute; reflexivity. Qed.

(** * The claims *)

(** C1.  A switch sequence is, in this order: what the privilege toggler
    stores for a raise, what the prefetch stall stores, what the variant-v2
    pagetable switch stores, the base-pointer invalidate, and what the
    privilege toggler stores for a lower.  The whole is the concatenation of
    the five parts, so the raise words lie before the pagetable-switch words
    and the lower words after them.  Raise and lower have the same length:
    either both are empty or neither is. *)
Theorem switch_sequence_order `{H : Headers}
    (rb : adreno_ringbuffer) (pt : kgsl_pagetable) :
  let adreno_dev := ADRENO_RB_DEVICE rb in
  let iommu := KGSL_IOMMU_PRIV (KGSL_DEVICE adreno_dev) in
  writes (adreno_iommu_set_apriv adreno_dev 1) (raise_part rb) ∧
  writes (_adreno_iommu_add_idle_indirect_cmds adreno_dev
            (add_u64 (setstate_gpuaddr iommu) KGSL_IOMMU_SETSTATE_NOP_OFFSET))
         (stall_part rb) ∧
  writes (_adreno_iommu_set_pt_v2_a6xx adreno_dev
            (kgsl_mmu_pagetable_get_ttbr0 pt)
            (kgsl_mmu_pagetable_get_contextidr pt) rb
            (cb_num (ctx iommu KGSL_IOMMU_CONTEXT_USER)))
         (switch_part rb pt) ∧
  writes (cp_invalidate_state adreno_dev) (invalidate_part rb) ∧
  writes (adreno_iommu_set_apriv adreno_dev 0) (lower_part rb) ∧
  writes (adreno_iommu_set_pt_generate_cmds rb pt)
         (raise_part rb ++ stall_part rb ++ switch_part rb pt ++
          invalidate_part rb ++ lower_part rb) ∧
  length (raise_part rb) = length (lower_part rb) ∧
  ((raise_part rb = [] ∧ lower_part rb = []) ∨
   (raise_part rb ≠ [] ∧ lower_part rb ≠ [])).
Proof.
  cbn zeta. split_and!.
  - apply (writes_set_apriv _ 1).
  - apply writes_add_idle_indirect_cmds.
  - apply writes_set_pt_v2_a6xx.
  - apply writes_cp_invalidate_state.
  - apply (writes_set_apriv _ 0).
  - apply writes_generate_cmds.
  - unfold raise_part, lower_part, privilege_words.
    destruct (ADRENO_FEATURE _ _); [done|]. by rewrite !length_app.
  - unfold raise_part, lower_part, privilege_words.
    destruct (ADRENO_FEATURE _ _); [by left|right].
    split; intros E; apply (f_equal length) in E;
      rewrite !length_app in E; simpl in E; lia.
Qed.

(** C2.  A request for the pagetable the ring buffer already runs on (the
    active draw context's, or the default one when none is active) makes no
    pagetable-switch submission: the only submission is the full context
    record, no buffer is allocated and nothing is logged. *)
Theorem same_pagetable_no_switch `{H : Headers}
    (rb : adreno_ringbuffer) (new_pt : kgsl_pagetable)
    (drawctxt : option adreno_context) (w : world) :
  new_pt = active_pagetable rb →
  adreno_iommu_set_pt_ctx rb new_pt drawctxt w =
    (transport w (issued w) (context_record_submission rb drawctxt),
     submit (context_record_submission rb drawctxt) w).
Proof.
  intros ->. rewrite set_pt_ctx_unfold, Z.eqb_refl.
  cbn [negb]. rewrite andb_false_r. apply set_ctxt_gpu_run.
Qed.

Lemma same_pagetable_no_switch_witness :
  2 = active_pagetable Scenario.busy_ring ∧
  @adreno_iommu_set_pt_ctx Scenario.page_4k Scenario.busy_ring 2
      (Some Scenario.context7) Scenario.calm =
    (0, submit (@context_record_submission Scenario.page_4k Scenario.busy_ring
                  (Some Scenario.context7))
               Scenario.calm).
Proof.
  split; [reflexivity|].
  apply (@same_pagetable_no_switch Scenario.page_4k Scenario.busy_ring 2
           (Some Scenario.context7) Scenario.calm).
  reflexivity.
Defined.

(** C3, as stated, fails: a switch request whose pagetable-switch submission
    the transport rejects returns that error, and the one submission made is
    the protected-mode switch sequence; no context record follows. *)
Lemma context_record_not_always :
  @adreno_iommu_set_pt_ctx Scenario.page_4k Scenario.plain_ring 2
      (Some Scenario.context7) Scenario.rejecting =
    (-5, submit (@pagetable_switch_submission Scenario.page_4k
                   Scenario.plain_ring 2)
                Scenario.rejecting)
  ∧ @context_record_submission Scenario.page_4k Scenario.plain_ring
      (Some Scenario.context7)
    ∉ issued (snd (@adreno_iommu_set_pt_ctx Scenario.page_4k Scenario.plain_ring
                     2 (Some Scenario.context7) Scenario.rejecting)).
Proof.
  assert (E : @adreno_iommu_set_pt_ctx Scenario.page_4k Scenario.plain_ring 2
                (Some Scenario.context7) Scenario.rejecting =
              (-5, submit (@pagetable_switch_submission Scenario.page_4k
                             Scenario.plain_ring 2)
                          Scenario.rejecting))
    by (vm_compute; reflexivity).
  split; [exact E|]. rewrite E. cbn [snd submit issued Scenario.rejecting app].
  intros Hin. apply list_elem_of_singleton in Hin.
  apply (f_equal sub_flags) in Hin. vm_compute in Hin. discriminate.
Qed.

(** C3, amended.  The pagetable-switch step runs when an MMU is attached and
    the requested pagetable is not the active one.  When that step is not
    run, or returns 0, the entry point submits the context record as a
    submission of its own, after whatever the step submitted, and returns
    the transport's result for it.  When the step returns an error, the
    entry point returns that error and submits nothing further. *)
Theorem context_record_after_switch `{H : Headers}
    (rb : adreno_ringbuffer) (new_pt : kgsl_pagetable)
    (drawctxt : option adreno_context) (w : world) (r : Z) (w1 : world) :
  (if negb (kgsl_mmu_get_mmutype (KGSL_DEVICE (ADRENO_RB_DEVICE rb))
            =? KGSL_MMU_TYPE_NONE)
      && negb (new_pt =? active_pagetable rb)
   then _set_pagetable_gpu rb new_pt w else (0, w)) = (r, w1) →
  (r = 0 →
   adreno_iommu_set_pt_ctx rb new_pt drawctxt w =
     (transport w1 (issued w1) (context_record_submission rb drawctxt),
      submit (context_record_submission rb drawctxt) w1)) ∧
  (r ≠ 0 → adreno_iommu_set_pt_ctx rb new_pt drawctxt w = (r, w1)).
Proof.
  intros Hstep. rewrite set_pt_ctx_unfold.
  destruct (negb _ && negb _).
  - rewrite Hstep. unfold int_true. split.
    + intros ->. cbn. apply set_ctxt_gpu_run.
    + intros Hr. apply Z.eqb_neq in Hr. by rewrite Hr.
  - injection Hstep as <- <-. split; [intros _; apply set_ctxt_gpu_run|done].
Qed.

Lemma context_record_after_switch_witness :
  (if negb (@kgsl_mmu_get_mmutype Scenario.page_4k
              (KGSL_DEVICE (ADRENO_RB_DEVICE Scenario.plain_ring))
            =? @KGSL_MMU_TYPE_NONE Scenario.page_4k)
      && negb (2 =? active_pagetable Scenario.plain_ring)
   then @_set_pagetable_gpu Scenario.page_4k Scenario.plain_ring 2 Scenario.calm
   else (0, Scenario.calm))
  = (0, submit (@pagetable_switch_submission Scenario.page_4k
                  Scenario.plain_ring 2) Scenario.calm)
  ∧ @adreno_iommu_set_pt_ctx Scenario.page_4k Scenario.plain_ring 2
      (Some Scenario.context7) Scenario.calm =
    (0, submit (@context_record_submission Scenario.page_4k Scenario.plain_ring
                  (Some Scenario.context7))
          (submit (@pagetable_switch_submission Scenario.page_4k
                     Scenario.plain_ring 2) Scenario.calm)).
Proof.
  assert (E : (if negb (@kgsl_mmu_get_mmutype Scenario.page_4k
                 (KGSL_DEVICE (ADRENO_RB_DEVICE Scenario.plain_ring))
                =? @KGSL_MMU_TYPE_NONE Scenario.page_4k)
                 && negb (2 =? active_pagetable Scenario.plain_ring)
               then @_set_pagetable_gpu Scenario.page_4k Scenario.plain_ring 2
                      Scenario.calm
               else (0, Scenario.calm))
              = (0, submit (@pagetable_switch_submission Scenario.page_4k
                              Scenario.plain_ring 2) Scenario.calm))
    by (vm_compute; reflexivity).
  split; [exact E|].
  apply (proj1 (@context_record_after_switch Scenario.page_4k
                  Scenario.plain_ring 2 (Some Scenario.context7) Scenario.calm
                  0 _ E)).
  reflexivity.
Defined.

(** C4.  The variant-v2 generator stores, in order: an idle-wait; a
    command-processor wait; when the counters are inactive, the register
    write of 1 to the SRAM-init command register; the 4-payload SMMU table
    update with the low half, the high half, the context identifier and the
    context-bank number; the memory write of low half, high half and context
    identifier to the ring buffer's pagetable-info shadow; a
    command-processor wait; an idle-wait; and, when the counters are
    inactive, the wait-on-memory-register polling the SRAM-init status
    register for 1.  It is total and returns the number of words stored. *)
Theorem pagetable_switch_v2_sequence `{H : Headers}
    (adreno_dev : adreno_device) (ttbr0 contextidr : Z)
    (rb : adreno_ringbuffer) (cb_num : Z) (b : cmdbuf) :
  let ws :=
    wait_for_idle_pkt adreno_dev ++
    wait_for_me_pkt adreno_dev ++
    (if perfcounter adreno_dev then []
     else [cp_type4_packet A6XX_RBBM_PERFCTR_SRAM_INIT_CMD 1; 1]) ++
    [cp_packet adreno_dev CP_SMMU_TABLE_UPDATE 4;
     lower_32_bits ttbr0; upper_32_bits ttbr0; contextidr; cb_num] ++
    ([cp_mem_packet adreno_dev CP_MEM_WRITE 4 1] ++
     gpuaddr_pkt adreno_dev
       (add_u64 (pagetable_desc_gpuaddr rb) PT_INFO_OFFSET_ttbr0) ++
     [lower_32_bits ttbr0; upper_32_bits ttbr0; contextidr]) ++
    wait_for_me_pkt adreno_dev ++
    wait_for_idle_pkt adreno_dev ++
    (if perfcounter adreno_dev then []
     else [cp_type7_packet CP_WAIT_REG_MEM 6; 3;
           A6XX_RBBM_PERFCTR_SRAM_INIT_STATUS; 0; 1; 1; 0]) in
  _adreno_iommu_set_pt_v2_a6xx adreno_dev ttbr0 contextidr rb cb_num b
  = (length ws, store_words ws b).
Proof. apply writes_set_pt_v2_a6xx. Qed.

(** C5, as stated, fails twice.  With the fault bit raised and the
    allocator out of memory, the switch step and the entry point return
    -ENOMEM, not success: the buffer is allocated before the fault bit is
    looked at.  With the fault bit raised and memory available, the entry
    point still generates and submits the 12-word context record. *)
Lemma fault_skip_not_always :
  test_bit (@ADRENO_DEVICE_FAULT Scenario.page_4k)
           (priv (ADRENO_RB_DEVICE Scenario.faulted_ring)) = true
  ∧ @_set_pagetable_gpu Scenario.page_4k Scenario.faulted_ring 2
      Scenario.exhausted = (-12, Scenario.exhausted)
  ∧ @adreno_iommu_set_pt_ctx Scenario.page_4k Scenario.faulted_ring 2 None
      Scenario.exhausted = (-12, Scenario.exhausted)
  ∧ (sub_count <$>
       issued (snd (@adreno_iommu_set_pt_ctx Scenario.page_4k
                      Scenario.faulted_ring 2 None Scenario.calm)))
    = [12%nat].
Proof. split_and!; vm_compute; reflexivity. Qed.

(** C5, amended.  When the fault bit is raised and the transient buffer
    could be allocated, the switch step generates nothing, submits nothing,
    logs nothing, releases the buffer and returns 0: the world is as before.
    The entry point then submits the context record, and only that. *)
Theorem fault_skip `{H : Headers}
    (rb : adreno_ringbuffer) (new_pt : kgsl_pagetable)
    (drawctxt : option adreno_context) (w : world) :
  kmalloc_fails w = false →
  test_bit ADRENO_DEVICE_FAULT (priv (ADRENO_RB_DEVICE rb)) = true →
  _set_pagetable_gpu rb new_pt w = (0, w) ∧
  adreno_iommu_set_pt_ctx rb new_pt drawctxt w =
    (transport w (issued w) (context_record_submission rb drawctxt),
     submit (context_record_submission rb drawctxt) w).
Proof.
  intros Hm Hf. split; [by apply set_pagetable_gpu_fault|].
  rewrite set_pt_ctx_unfold.
  destruct (negb _ && negb _); [|apply set_ctxt_gpu_run].
  rewrite set_pagetable_gpu_fault by done. cbn. apply set_ctxt_gpu_run.
Qed.

Lemma fault_skip_witness :
  kmalloc_fails Scenario.calm = false
  ∧ test_bit (@ADRENO_DEVICE_FAULT Scenario.page_4k)
             (priv (ADRENO_RB_DEVICE Scenario.faulted_ring)) = true
  ∧ @_set_pagetable_gpu Scenario.page_4k Scenario.faulted_ring 2 Scenario.calm
    = (0, Scenario.calm)
  ∧ @adreno_iommu_set_pt_ctx Scenario.page_4k Scenario.faulted_ring 2 None
      Scenario.calm =
    (0, submit (@context_record_submission Scenario.page_4k
                  Scenario.faulted_ring None) Scenario.calm).
Proof.
  split; [reflexivity|]. split; [reflexivity|].
  apply (@fault_skip Scenario.page_4k Scenario.faulted_ring 2 None
           Scenario.calm); reflexivity.
Defined.

(** C6.  When the count the generator returns exceeds the page's capacity in
    words, stores have landed outside the allocation, and the switch step
    logs the warning and does nothing else about it: the sequence is handed
    to the transport in protected mode with that count, and the step returns
    whatever the transport returns. *)
Theorem overrun_still_submitted `{H : Headers}
    (rb : adreno_ringbuffer) (new_pt : kgsl_pagetable) (w : world) :
  kmalloc_fails w = false →
  test_bit ADRENO_DEVICE_FAULT (priv (ADRENO_RB_DEVICE rb)) = false →
  Z.of_nat (fst (adreno_iommu_set_pt_generate_cmds rb new_pt
                   (fresh_buf (Z.to_nat (PAGE_SIZE / sizeof_unsigned_int)))))
    > PAGE_SIZE / sizeof_unsigned_int →
  overrun (snd (adreno_iommu_set_pt_generate_cmds rb new_pt
                  (fresh_buf (Z.to_nat (PAGE_SIZE / sizeof_unsigned_int)))))
    = true
  ∧ _set_pagetable_gpu rb new_pt w =
      (transport w (issued w) (pagetable_switch_submission rb new_pt),
       submit (pagetable_switch_submission rb new_pt)
              (warn overflow_message w))
  ∧ Z.of_nat (sub_count (pagetable_switch_submission rb new_pt))
    > PAGE_SIZE / sizeof_unsigned_int.
Proof.
  intros Hm Hf Hc. rewrite writes_generate_cmds in *. cbn [fst snd] in *.
  split_and!.
  - rewrite overrun_store_words. cbn [overrun capacity pos fresh_buf orb].
    pose proof (switch_sequence_nonempty rb new_pt) as Hne.
    apply bool_decide_eq_true_2. split; [|lia].
    intros E. rewrite E in Hne. simpl in Hne. lia.
  - rewrite set_pagetable_gpu_run by done. cbn zeta.
    by rewrite bool_decide_eq_true_2.
  - exact Hc.
Qed.

Lemma overrun_still_submitted_witness :
  kmalloc_fails Scenario.calm = false
  ∧ test_bit (@ADRENO_DEVICE_FAULT Scenario.page_64)
             (priv (ADRENO_RB_DEVICE Scenario.plain_ring)) = false
  ∧ Z.of_nat (fst (@adreno_iommu_set_pt_generate_cmds Scenario.page_64
                     Scenario.plain_ring 2 (fresh_buf 16))) > 16
  ∧ overrun (snd (@adreno_iommu_set_pt_generate_cmds Scenario.page_64
                    Scenario.plain_ring 2 (fresh_buf 16))) = true
  ∧ @_set_pagetable_gpu Scenario.page_64 Scenario.plain_ring 2 Scenario.calm =
      (0, submit (@pagetable_switch_submission Scenario.page_64
                    Scenario.plain_ring 2)
                 (warn overflow_message Scenario.calm))
  ∧ Z.of_nat (sub_count (@pagetable_switch_submission Scenario.page_64
                           Scenario.plain_ring 2)) > 16.
Proof.
  split; [reflexivity|]. split; [reflexivity|]. split; [reflexivity|].
  apply (@overrun_still_submitted Scenario.page_64 Scenario.plain_ring 2
           Scenario.calm); reflexivity.
Defined.

(** C7.  On a variant with native privilege the toggler returns 0 and leaves
    the buffer as it was.  Otherwise it stores a wait-for-idle, a
    wait-for-me, the register-write header for the privilege control
    register and then 1 for a raise or 0 for a lower.  The count does not
    depend on the direction. *)
Theorem privilege_toggler `{H : Headers}
    (adreno_dev : adreno_device) (set : Z) (b b' : cmdbuf) :
  adreno_iommu_set_apriv adreno_dev set b =
    (if ADRENO_FEATURE adreno_dev ADRENO_APRIV then (0%nat, b)
     else
       let ws := wait_for_idle_pkt adreno_dev ++ wait_for_me_pkt adreno_dev ++
                 [cp_register adreno_dev
                    (adreno_getreg adreno_dev ADRENO_REG_CP_CNTL) 1;
                  if int_true set then 1 else 0] in
       (length ws, store_words ws b))
  ∧ fst (adreno_iommu_set_apriv adreno_dev 1 b)
    = fst (adreno_iommu_set_apriv adreno_dev 0 b').
Proof.
  rewrite !writes_set_apriv. unfold privilege_words.
  destruct (ADRENO_FEATURE adreno_dev ADRENO_APRIV); [done|].
  cbn zeta. split; [done|]. cbn [fst]. by rewrite !length_app.
Qed.

(** C8.  Without a context the context record stores 0 to the ring buffer's
    tracking location and 0 to the global one; with a context it stores the
    context's id to both.  The record is: the identifier marker, a memory
    write of the id to the ring buffer's location, a memory write of the id
    to the global location, and the cache-invalidate event. *)
Theorem context_record_ids `{H : Headers}
    (rb : adreno_ringbuffer) (drawctxt : option adreno_context) (b : cmdbuf) :
  let adreno_dev := ADRENO_RB_DEVICE rb in
  let device := KGSL_DEVICE adreno_dev in
  let id := match drawctxt with Some c => base_id c | None => 0 end in
  let ws :=
    identifier_pkt adreno_dev CONTEXT_TO_MEM_IDENTIFIER ++
    ([cp_mem_packet adreno_dev CP_MEM_WRITE 2 1] ++
     gpuaddr_pkt adreno_dev (MEMSTORE_RB_GPU_ADDR device rb current_context) ++
     [id]) ++
    ([cp_mem_packet adreno_dev CP_MEM_WRITE 2 1] ++
     gpuaddr_pkt adreno_dev
       (MEMSTORE_ID_GPU_ADDR device KGSL_MEMSTORE_GLOBAL current_context) ++
     [id]) ++
    [cp_packet adreno_dev CP_EVENT_WRITE 1; 49] in
  __add_curr_ctxt_cmds rb drawctxt b = (length ws, store_words ws b).
Proof.
  cbn zeta. rewrite writes_add_curr_ctxt_cmds.
  unfold context_record_words, context_id. cbn zeta.
  by rewrite <- !app_assoc.
Qed.

(** C9.  Without an MMU the entry point does nothing about pagetables,
    whatever pagetable is requested and whatever the ring buffer runs on: no
    buffer is allocated, nothing is logged, the one submission is the
    context record, and the result is the transport's result for it. *)
Theorem no_mmu_no_switch `{H : Headers}
    (rb : adreno_ringbuffer) (new_pt : kgsl_pagetable)
    (drawctxt : option adreno_context) (w : world) :
  kgsl_mmu_get_mmutype (KGSL_DEVICE (ADRENO_RB_DEVICE rb)) = KGSL_MMU_TYPE_NONE →
  adreno_iommu_set_pt_ctx rb new_pt drawctxt w =
    (transport w (issued w) (context_record_submission rb drawctxt),
     submit (context_record_submission rb drawctxt) w).
Proof.
  intros Hn. rewrite set_pt_ctx_unfold, Hn, Z.eqb_refl. apply set_ctxt_gpu_run.
Qed.

Lemma no_mmu_no_switch_witness :
  @kgsl_mmu_get_mmutype Scenario.page_4k
     (KGSL_DEVICE (ADRENO_RB_DEVICE Scenario.bare_ring))
  = @KGSL_MMU_TYPE_NONE Scenario.page_4k
  ∧ @adreno_iommu_set_pt_ctx Scenario.page_4k Scenario.bare_ring 2
      (Some Scenario.context7) Scenario.calm =
    (0, submit (@context_record_submission Scenario.page_4k Scenario.bare_ring
                  (Some Scenario.context7)) Scenario.calm).
Proof.
  split; [reflexivity|].
  apply (@no_mmu_no_switch Scenario.page_4k Scenario.bare_ring 2
           (Some Scenario.context7) Scenario.calm).
  reflexivity.
Defined.

(** C10.  The context-record builder stores six words of its own, the
    identifier marker and two GPU addresses.  With an encoding whose GPU
    address takes at most two words and whose marker takes at most five, the
    record is at most 15 words for a present and for an absent context: in
    the 15-word buffer of the submission helper no store lands outside the
    buffer, the cells written are exactly the first [n] where [n] is the
    count returned, and the helper hands the transport that count together
    with those [n] initialised words. *)
Theorem context_record_fits `{H : Headers}
    (rb : adreno_ringbuffer) (drawctxt : option adreno_context) (w : world) :
  (∀ gpuaddr, length (gpuaddr_pkt (ADRENO_RB_DEVICE rb) gpuaddr) ≤ 2)%nat →
  (length (identifier_pkt (ADRENO_RB_DEVICE rb) CONTEXT_TO_MEM_IDENTIFIER) ≤ 5)%nat →
  ∃ (n : nat) (link : cmdbuf) (ws : list word),
    __add_curr_ctxt_cmds rb drawctxt (fresh_buf 15) = (n, link) ∧
    (n ≤ 15)%nat ∧
    overrun link = false ∧
    dom (cells link) = (set_seq 0 n : gset nat) ∧
    read_words link 0 n = Some <$> ws ∧
    issued (snd (_set_ctxt_gpu rb drawctxt w)) =
      issued w ++ [{| sub_rb := rb; sub_flags := 0;
                      sub_words := Some <$> ws; sub_count := n |}].
Proof.
  intros Hga Hid.
  set (ws := context_record_words rb (context_id drawctxt)).
  assert (Hlen : (length ws ≤ 15)%nat).
  { unfold ws, context_record_words. cbn zeta. rewrite !length_app. simpl.
    pose proof (Hga (MEMSTORE_RB_GPU_ADDR (KGSL_DEVICE (ADRENO_RB_DEVICE rb))
                       rb current_context)).
    pose proof (Hga (MEMSTORE_ID_GPU_ADDR (KGSL_DEVICE (ADRENO_RB_DEVICE rb))
                       KGSL_MEMSTORE_GLOBAL current_context)).
    lia. }
  exists (length ws), (store_words ws (fresh_buf 15)), ws. split_and!.
  - apply writes_add_curr_ctxt_cmds.
  - exact Hlen.
  - rewrite overrun_store_words. cbn [overrun capacity pos fresh_buf orb].
    apply bool_decide_eq_false_2. lia.
  - apply dom_store_words_fresh.
  - apply (read_store_words ws (fresh_buf 15)).
  - by rewrite set_ctxt_gpu_run.
Qed.

Lemma context_record_fits_witness :
  (∀ gpuaddr,
     length (@gpuaddr_pkt Scenario.page_4k
               (ADRENO_RB_DEVICE Scenario.plain_ring) gpuaddr) ≤ 2)%nat
  ∧ (length (@identifier_pkt Scenario.page_4k
               (ADRENO_RB_DEVICE Scenario.plain_ring)
               (@CONTEXT_TO_MEM_IDENTIFIER Scenario.page_4k)) ≤ 5)%nat
  ∧ ∃ (n : nat) (link : cmdbuf) (ws : list word),
      @__add_curr_ctxt_cmds Scenario.page_4k Scenario.plain_ring
         (Some Scenario.context7) (fresh_buf 15) = (n, link) ∧
      (n ≤ 15)%nat ∧
      overrun link = false ∧
      dom (cells link) = (set_seq 0 n : gset nat) ∧
      read_words link 0 n = Some <$> ws ∧
      issued (snd (@_set_ctxt_gpu Scenario.page_4k Scenario.plain_ring
                     (Some Scenario.context7) Scenario.calm)) =
        issued Scenario.calm ++
          [{| sub_rb := Scenario.plain_ring; sub_flags := 0;
              sub_words := Some <$> ws; sub_count := n |}].
Proof.
  split; [intros gpuaddr; simpl; lia|]. split; [simpl; lia|].
  apply (@context_record_fits Scenario.page_4k Scenario.plain_ring
           (Some Scenario.context7) Scenario.calm).
  - intros gpuaddr. simpl. lia.
  - simpl. lia.
Defined.

(** * Further properties of the generators *)

Section GeneratorBounds.
Context `{H : Headers}.

(** The length of a switch sequence, part by part. *)
Lemma switch_sequence_length rb pt :
  let adreno_dev := ADRENO_RB_DEVICE rb in
  let iommu := KGSL_IOMMU_PRIV (KGSL_DEVICE adreno_dev) in
  let i := length (wait_for_idle_pkt adreno_dev) in
  let m := length (wait_for_me_pkt adreno_dev) in
  let gn := length (gpuaddr_pkt adreno_dev
              (add_u64 (setstate_gpuaddr iommu) KGSL_IOMMU_SETSTATE_NOP_OFFSET)) in
  let gs := length (gpuaddr_pkt adreno_dev
              (add_u64 (pagetable_desc_gpuaddr rb) PT_INFO_OFFSET_ttbr0)) in
  let inv := length (invalidate_state_pkt adreno_dev) in
  length (switch_sequence_words rb pt) =
    ((if ADRENO_FEATURE adreno_dev ADRENO_APRIV then 0 else 2 * (i + m + 2)) +
     (m + gn + i + 2) +
     (2 * i + 2 * m + gs + 9 + (if perfcounter adreno_dev then 0 else 9)) +
     inv)%nat.
Proof.
  cbn zeta.
  unfold switch_sequence_words, raise_part, stall_part, switch_part,
    invalidate_part, lower_part, privilege_words, prefetch_stall_words,
    pagetable_switch_words, table_update_words, shadow_write_words,
    perfctr_reset_words, perfctr_wait_words.
  destruct (ADRENO_FEATURE _ _), (perfcounter _);
    rewrite !length_app; simpl; rewrite ?length_app; simpl;
    unfold word; lia.
Qed.

(** With a compact encoding a switch sequence has at most 52 words. *)
Lemma switch_sequence_length_le rb pt :
  compact_encoding (ADRENO_RB_DEVICE rb) →
  (length (switch_sequence_words rb pt) ≤ 52)%nat.
Proof.
  intros (Hi & Hm & Hg & Hv). rewrite switch_sequence_length. cbn zeta.
  pose proof (Hg (add_u64 (setstate_gpuaddr (KGSL_IOMMU_PRIV (KGSL_DEVICE
                (ADRENO_RB_DEVICE rb)))) KGSL_IOMMU_SETSTATE_NOP_OFFSET)).
  pose proof (Hg (add_u64 (pagetable_desc_gpuaddr rb) PT_INFO_OFFSET_ttbr0)).
  destruct (ADRENO_FEATURE _ _), (perfcounter _); lia.
Qed.

End GeneratorBounds.

(** X1.  The switch-sequence generator stays in its window: it leaves the
    capacity alone, ends with [cmds] advanced by the count it returns,
    changes no cell below the [cmds] it was given and none at or past the
    final [cmds], and every cell in between is initialised when it returns. *)
Theorem generate_cmds_window `{H : Headers}
    (rb : adreno_ringbuffer) (pt : kgsl_pagetable) (b : cmdbuf) :
  let n := fst (adreno_iommu_set_pt_generate_cmds rb pt b) in
  let b' := snd (adreno_iommu_set_pt_generate_cmds rb pt b) in
  capacity b' = capacity b ∧
  pos b' = (pos b + n)%nat ∧
  (∀ i, (i < pos b ∨ pos b + n ≤ i)%nat → cells b' !! i = cells b !! i) ∧
  Forall is_Some (read_words b' (pos b) n).
Proof.
  cbn zeta. pose proof (writes_generate_cmds rb pt b) as E.
  destruct (adreno_iommu_set_pt_generate_cmds rb pt b) as [n b'].
  injection E as -> ->. cbn [fst snd]. split_and!.
  - apply capacity_store_words.
  - apply pos_store_words.
  - intros i [Hi|Hi].
    + by apply cells_store_words_below.
    + by apply cells_store_words_above.
  - rewrite read_store_words. apply Forall_fmap, Forall_true. by eexists.
Qed.

(** X2.  The count of a switch sequence depends on the ring buffer only: it
    is the same for every target pagetable, and for every buffer state it is
    generated into. *)
Theorem generate_cmds_count_fixed `{H : Headers}
    (rb : adreno_ringbuffer) (pt1 pt2 : kgsl_pagetable) (b1 b2 : cmdbuf) :
  fst (adreno_iommu_set_pt_generate_cmds rb pt1 b1)
  = fst (adreno_iommu_set_pt_generate_cmds rb pt2 b2).
Proof.
  rewrite !writes_generate_cmds. cbn [fst].
  by rewrite !switch_sequence_length.
Qed.

(** X3.  The count of a switch sequence in closed form: twice the toggler's
    words unless the hardware has native privilege, the stall, the switch
    with 9 more words when the counters are inactive, and the
    invalidate. *)
Theorem generate_cmds_count `{H : Headers}
    (rb : adreno_ringbuffer) (pt : kgsl_pagetable) (b : cmdbuf) :
  let adreno_dev := ADRENO_RB_DEVICE rb in
  let iommu := KGSL_IOMMU_PRIV (KGSL_DEVICE adreno_dev) in
  let i := length (wait_for_idle_pkt adreno_dev) in
  let m := length (wait_for_me_pkt adreno_dev) in
  let gn := length (gpuaddr_pkt adreno_dev
              (add_u64 (setstate_gpuaddr iommu) KGSL_IOMMU_SETSTATE_NOP_OFFSET)) in
  let gs := length (gpuaddr_pkt adreno_dev
              (add_u64 (pagetable_desc_gpuaddr rb) PT_INFO_OFFSET_ttbr0)) in
  let inv := length (invalidate_state_pkt adreno_dev) in
  fst (adreno_iommu_set_pt_generate_cmds rb pt b) =
    ((if ADRENO_FEATURE adreno_dev ADRENO_APRIV then 0 else 2 * (i + m + 2)) +
     (m + gn + i + 2) +
     (2 * i + 2 * m + gs + 9 + (if perfcounter adreno_dev then 0 else 9)) +
     inv)%nat.
Proof.
  cbn zeta. rewrite writes_generate_cmds. cbn [fst].
  apply switch_sequence_length.
Qed.

(** X4.  With a compact encoding (waits and GPU addresses of at most two
    words, an invalidate of at most four) a switch sequence has at most 52
    words, whatever the feature flags, the counter state and the target
    pagetable. *)
Theorem generate_cmds_at_most_52 `{H : Headers}
    (rb : adreno_ringbuffer) (pt : kgsl_pagetable) (b : cmdbuf) :
  compact_encoding (ADRENO_RB_DEVICE rb) →
  (fst (adreno_iommu_set_pt_generate_cmds rb pt b) ≤ 52)%nat.
Proof.
  intros Hc. rewrite writes_generate_cmds. cbn [fst].
  by apply switch_sequence_length_le.
Qed.

Lemma generate_cmds_at_most_52_witness :
  @compact_encoding Scenario.page_4k (ADRENO_RB_DEVICE Scenario.plain_ring)
  ∧ (fst (@adreno_iommu_set_pt_generate_cmds Scenario.page_4k
            Scenario.plain_ring 2%Z (fresh_buf 1024)) ≤ 52)%nat.
Proof.
  assert (Hc : @compact_encoding Scenario.page_4k
                 (ADRENO_RB_DEVICE Scenario.plain_ring))
    by (unfold compact_encoding; simpl; split_and!; try intros ?; lia).
  split; [exact Hc|].
  exact (@generate_cmds_at_most_52 Scenario.page_4k Scenario.plain_ring 2
           (fresh_buf 1024) Hc).
Defined.

(** X5.  With a compact encoding and a page of at least 208 bytes, a switch
    on a device that is not in a fault never overruns its transient buffer:
    no store lands outside the allocation, no warning is logged, and the
    one effect is the protected-mode submission. *)
Theorem switch_fits_in_page `{H : Headers}
    (rb : adreno_ringbuffer) (new_pt : kgsl_pagetable) (w : world) :
  compact_encoding (ADRENO_RB_DEVICE rb) →
  208 ≤ PAGE_SIZE →
  kmalloc_fails w = false →
  test_bit ADRENO_DEVICE_FAULT (priv (ADRENO_RB_DEVICE rb)) = false →
  overrun (snd (adreno_iommu_set_pt_generate_cmds rb new_pt
                  (fresh_buf (Z.to_nat (PAGE_SIZE / sizeof_unsigned_int)))))
    = false
  ∧ _set_pagetable_gpu rb new_pt w =
      (transport w (issued w) (pagetable_switch_submission rb new_pt),
       submit (pagetable_switch_submission rb new_pt) w).
Proof.
  intros Hc Hp Hm Hf.
  pose proof (switch_sequence_length_le rb new_pt Hc) as Hle.
  assert (52 ≤ PAGE_SIZE / sizeof_unsigned_int) as Hcap
    by (unfold sizeof_unsigned_int; apply Z.div_le_lower_bound; lia).
  split.
  - rewrite writes_generate_cmds. cbn [snd].
    rewrite overrun_store_words. cbn [overrun capacity pos fresh_buf orb].
    apply bool_decide_eq_false_2. intros [_ Hlt]. lia.
  - rewrite set_pagetable_gpu_run by done. cbn zeta.
    rewrite bool_decide_eq_false_2 by lia. reflexivity.
Qed.

Lemma switch_fits_in_page_witness :
  @compact_encoding Scenario.page_4k (ADRENO_RB_DEVICE Scenario.plain_ring)
  ∧ 208 ≤ @PAGE_SIZE Scenario.page_4k
  ∧ kmalloc_fails Scenario.calm = false
  ∧ test_bit (@ADRENO_DEVICE_FAULT Scenario.page_4k)
             (priv (ADRENO_RB_DEVICE Scenario.plain_ring)) = false
  ∧ overrun (snd (@adreno_iommu_set_pt_generate_cmds Scenario.page_4k
                    Scenario.plain_ring 2 (fresh_buf 1024))) = false
  ∧ @_set_pagetable_gpu Scenario.page_4k Scenario.plain_ring 2 Scenario.calm =
      (0, submit (@pagetable_switch_submission Scenario.page_4k
                    Scenario.plain_ring 2) Scenario.calm).
Proof.
  assert (Hc : @compact_encoding Scenario.page_4k
                 (ADRENO_RB_DEVICE Scenario.plain_ring))
    by (unfold compact_encoding; simpl; split_and!; try intros ?; lia).
  split; [exact Hc|]. split; [simpl; lia|].
  split; [reflexivity|]. split; [reflexivity|].
  apply (@switch_fits_in_page Scenario.page_4k Scenario.plain_ring 2
           Scenario.calm Hc); [simpl; lia|reflexivity|reflexivity].
Defined.

(** X6.  The overflow warning is exact.  For a page size that is not
    negative, on a device that is not in a fault, the switch step logs the
    warning if a store of the generator landed outside the transient buffer,
    and logs nothing if none did. *)
Theorem warning_iff_overrun `{H : Headers}
    (rb : adreno_ringbuffer) (new_pt : kgsl_pagetable) (w : world) :
  0 ≤ PAGE_SIZE →
  kmalloc_fails w = false →
  test_bit ADRENO_DEVICE_FAULT (priv (ADRENO_RB_DEVICE rb)) = false →
  warnings (snd (_set_pagetable_gpu rb new_pt w)) =
    if overrun (snd (adreno_iommu_set_pt_generate_cmds rb new_pt
                       (fresh_buf (Z.to_nat (PAGE_SIZE / sizeof_unsigned_int)))))
    then warnings w ++ [overflow_message]
    else warnings w.
Proof.
  intros Hp Hm Hf. rewrite set_pagetable_gpu_run by done.
  rewrite writes_generate_cmds. cbn [snd]. cbn zeta.
  rewrite overrun_store_words. cbn [overrun capacity pos fresh_buf orb].
  pose proof (switch_sequence_nonempty rb new_pt) as Hne.
  assert (0 ≤ PAGE_SIZE / sizeof_unsigned_int) as Hq
    by (unfold sizeof_unsigned_int; apply Z.div_pos; lia).
  repeat case_bool_decide; try reflexivity; exfalso.
  - apply H1. split; [|lia]. intros E. rewrite E in Hne. simpl in Hne. lia.
  - destruct H1 as [_ ?]. lia.
Qed.

Lemma warning_iff_overrun_witness :
  0 ≤ @PAGE_SIZE Scenario.page_64
  ∧ kmalloc_fails Scenario.calm = false
  ∧ test_bit (@ADRENO_DEVICE_FAULT Scenario.page_64)
             (priv (ADRENO_RB_DEVICE Scenario.plain_ring)) = false
  ∧ warnings (snd (@_set_pagetable_gpu Scenario.page_64 Scenario.plain_ring 2
                     Scenario.calm)) =
    if overrun (snd (@adreno_iommu_set_pt_generate_cmds Scenario.page_64
                       Scenario.plain_ring 2 (fresh_buf 16)))
    then warnings Scenario.calm ++ [overflow_message]
    else warnings Scenario.calm.
Proof.
  split; [simpl; lia|]. split; [reflexivity|]. split; [reflexivity|].
  apply (@warning_iff_overrun Scenario.page_64 Scenario.plain_ring 2
           Scenario.calm); [simpl; lia|reflexivity|reflexivity].
Defined.

(** X7.  The two halves of a 64-bit table base stored in the table update
    and in the shadow write are 32-bit words that put together give the
    table base back. *)
Theorem ttbr0_halves_round_trip (ttbr0 : Z) :
  0 ≤ ttbr0 < 2 ^ 64 →
  0 ≤ lower_32_bits ttbr0 < 2 ^ 32 ∧
  0 ≤ upper_32_bits ttbr0 < 2 ^ 32 ∧
  lower_32_bits ttbr0 + 2 ^ 32 * upper_32_bits ttbr0 = ttbr0.
Proof.
  intros Hr. unfold lower_32_bits, upper_32_bits.
  change 4294967295 with (Z.ones 32).
  rewrite !Z.land_ones by lia.
  rewrite Z.shiftr_shiftr by lia. change (16 + 16) with 32.
  rewrite Z.shiftr_div_pow2 by lia.
  assert (0 ≤ ttbr0 / 2 ^ 32 < 2 ^ 32) as Hq.
  { split; [apply Z.div_pos; lia|]. apply Z.div_lt_upper_bound; lia. }
  rewrite (Z.mod_small (ttbr0 / 2 ^ 32)) by lia.
  pose proof (Z.mod_pos_bound ttbr0 (2 ^ 32)).
  pose proof (Z.div_mod ttbr0 (2 ^ 32)). lia.
Qed.

Lemma ttbr0_halves_round_trip_witness :
  0 ≤ 81985529216486895 < 2 ^ 64
  ∧ 0 ≤ lower_32_bits 81985529216486895 < 2 ^ 32
  ∧ 0 ≤ upper_32_bits 81985529216486895 < 2 ^ 32
  ∧ lower_32_bits 81985529216486895
    + 2 ^ 32 * upper_32_bits 81985529216486895 = 81985529216486895.
Proof.
  split; [lia|].
  apply (ttbr0_halves_round_trip 81985529216486895). lia.
Defined.

(** X8.  The prefetch stall stores a wait-for-me, the indirect-buffer header
    with its address, the buffer size 2, and a wait-for-idle, and returns
    their number; the no-op buffer it points at is two words long whatever
    the encoding. *)
Theorem prefetch_stall_sequence `{H : Headers}
    (adreno_dev : adreno_device) (nop_gpuaddr : Z) (b : cmdbuf) :
  let ws := wait_for_me_pkt adreno_dev ++
            [cp_mem_packet adreno_dev CP_INDIRECT_BUFFER_PFE 2 1] ++
            gpuaddr_pkt adreno_dev nop_gpuaddr ++
            [2] ++
            wait_for_idle_pkt adreno_dev in
  _adreno_iommu_add_idle_indirect_cmds adreno_dev nop_gpuaddr b
  = (length ws, store_words ws b).
Proof. apply writes_add_idle_indirect_cmds. Qed.

(** X9.  The entry point looks at the context argument only for its id, a
    missing context counting as id 0: two context arguments with the same id
    give the same result and the same world, whatever pagetable the
    contexts belong to. *)
Theorem context_matters_by_id_only `{H : Headers}
    (rb : adreno_ringbuffer) (new_pt : kgsl_pagetable)
    (d1 d2 : option adreno_context) (w : world) :
  match d1 with Some c => base_id c | None => 0 end
  = match d2 with Some c => base_id c | None => 0 end →
  adreno_iommu_set_pt_ctx rb new_pt d1 w = adreno_iommu_set_pt_ctx rb new_pt d2 w.
Proof.
  intros Hid. rewrite !set_pt_ctx_unfold.
  assert (E : ∀ w', _set_ctxt_gpu rb d1 w' = _set_ctxt_gpu rb d2 w').
  { intros w'. rewrite !set_ctxt_gpu_run.
    unfold context_record_submission, context_id. by rewrite Hid. }
  destruct (negb _ && negb _); [|apply E].
  destruct (_set_pagetable_gpu rb new_pt w) as [r w1].
  destruct (int_true r); [done|apply E].
Qed.

Lemma context_matters_by_id_only_witness :
  match @None adreno_context with Some c => base_id c | None => 0 end
  = match Some {| base_id := 0; base_proc_priv_pagetable := 9 |} with
    | Some c => base_id c | None => 0 end
  ∧ @adreno_iommu_set_pt_ctx Scenario.page_4k Scenario.plain_ring 2 None
      Scenario.calm
    = @adreno_iommu_set_pt_ctx Scenario.page_4k Scenario.plain_ring 2
        (Some {| base_id := 0; base_proc_priv_pagetable := 9 |}) Scenario.calm.
Proof.
  split; [reflexivity|].
  apply (@context_matters_by_id_only Scenario.page_4k Scenario.plain_ring 2
           None (Some {| base_id := 0; base_proc_priv_pagetable := 9 |})
           Scenario.calm).
  reflexivity.
Defined.

(** * Further properties of the entry points *)

Section EntryPointCases.
Context `{H : Headers}.

(** The switch step, by its three ways out. *)
Lemma set_pagetable_gpu_cases rb new_pt w :
  _set_pagetable_gpu rb new_pt w =
    if kmalloc_fails w then (- ENOMEM, w)
    else if test_bit ADRENO_DEVICE_FAULT (priv (ADRENO_RB_DEVICE rb)) then (0, w)
    else
      (transport w (issued w) (pagetable_switch_submission rb new_pt),
       submit (pagetable_switch_submission rb new_pt)
         (if bool_decide (Z.of_nat (length (switch_sequence_words rb new_pt))
                          > PAGE_SIZE / sizeof_unsigned_int)
          then warn overflow_message w else w)).
Proof.
  destruct (kmalloc_fails w) eqn:Hm; [by apply set_pagetable_gpu_nomem|].
  destruct (test_bit _ _) eqn:Hf; [by apply set_pagetable_gpu_fault|].
  by apply set_pagetable_gpu_run.
Qed.

(** What a call of the entry point adds to the world: at most the switch
    submission followed by at most the context record, and at most the
    overflow warning; the oracles and the allocation count are as before. *)
Lemma set_pt_ctx_shape rb new_pt drawctxt w :
  let w' := snd (adreno_iommu_set_pt_ctx rb new_pt drawctxt w) in
  let P := pagetable_switch_submission rb new_pt in
  let C := context_record_submission rb drawctxt in
  (∃ l, issued w' = issued w ++ l ∧
        (l = [] ∨ l = [P] ∨ l = [C] ∨ l = [P; C])) ∧
  (warnings w' = warnings w ∨ warnings w' = warnings w ++ [overflow_message]) ∧
  allocated w' = allocated w ∧
  kmalloc_fails w' = kmalloc_fails w ∧
  transport w' = transport w.
Proof.
  cbn zeta. rewrite set_pt_ctx_unfold.
  destruct (negb _ && negb _).
  - rewrite set_pagetable_gpu_cases.
    destruct (kmalloc_fails w) eqn:Hm; [|destruct (test_bit _ _)].
    + destruct (int_true (- ENOMEM)); [|rewrite set_ctxt_gpu_run]; cbn.
      * split_and!; eauto 10. exists []. rewrite app_nil_r. eauto.
      * split_and!; eauto 10.
    + cbn. rewrite set_ctxt_gpu_run. cbn. split_and!; eauto 10.
    + destruct (int_true _); [|rewrite set_ctxt_gpu_run];
        case_bool_decide; cbn; rewrite <- ?app_assoc; split_and!; eauto 10.
  - rewrite set_ctxt_gpu_run. cbn. split_and!; eauto 10.
Qed.

End EntryPointCases.

(** X10.  The transient buffer never outlives the call: after the switch
    step, and after the entry point, as many buffers are allocated as
    before, on every path (allocation failure, fault, submission accepted or
    rejected). *)
Theorem transient_buffer_released `{H : Headers}
    (rb : adreno_ringbuffer) (new_pt : kgsl_pagetable)
    (drawctxt : option adreno_context) (w : world) :
  allocated (snd (_set_pagetable_gpu rb new_pt w)) = allocated w ∧
  allocated (snd (adreno_iommu_set_pt_ctx rb new_pt drawctxt w)) = allocated w.
Proof.
  split.
  - rewrite set_pagetable_gpu_cases.
    destruct (kmalloc_fails w); [done|].
    destruct (test_bit _ _); [done|]. by case_bool_decide.
  - apply (set_pt_ctx_shape rb new_pt drawctxt w).
Qed.

(** X11.  When a switch is needed (an MMU is attached and the requested
    pagetable is not the active one) and the transient buffer cannot be
    allocated, the entry point returns -ENOMEM and the world is untouched:
    nothing is submitted, not even the context record, and nothing is
    logged. *)
Theorem nomem_propagates `{H : Headers}
    (rb : adreno_ringbuffer) (new_pt : kgsl_pagetable)
    (drawctxt : option adreno_context) (w : world) :
  ENOMEM ≠ 0 →
  kgsl_mmu_get_mmutype (KGSL_DEVICE (ADRENO_RB_DEVICE rb)) ≠ KGSL_MMU_TYPE_NONE →
  new_pt ≠ active_pagetable rb →
  kmalloc_fails w = true →
  adreno_iommu_set_pt_ctx rb new_pt drawctxt w = (- ENOMEM, w).
Proof.
  intros He Hn Hp Hm. rewrite set_pt_ctx_unfold.
  apply Z.eqb_neq in Hn, Hp. rewrite Hn, Hp. cbn [negb andb].
  rewrite set_pagetable_gpu_nomem by done.
  unfold int_true. assert (- ENOMEM ≠ 0) as Hz by lia.
  apply Z.eqb_neq in Hz. by rewrite Hz.
Qed.

Lemma nomem_propagates_witness :
  @ENOMEM Scenario.page_4k ≠ 0
  ∧ @kgsl_mmu_get_mmutype Scenario.page_4k
      (KGSL_DEVICE (ADRENO_RB_DEVICE Scenario.plain_ring))
    ≠ @KGSL_MMU_TYPE_NONE Scenario.page_4k
  ∧ 2 ≠ active_pagetable Scenario.plain_ring
  ∧ kmalloc_fails Scenario.exhausted = true
  ∧ @adreno_iommu_set_pt_ctx Scenario.page_4k Scenario.plain_ring 2
      (Some Scenario.context7) Scenario.exhausted = (-12, Scenario.exhausted).
Proof.
  split; [by vm_compute|]. split; [by vm_compute|]. split; [by vm_compute|].
  split; [reflexivity|].
  apply (@nomem_propagates Scenario.page_4k Scenario.plain_ring 2
           (Some Scenario.context7) Scenario.exhausted);
    [by vm_compute|by vm_compute|by vm_compute|reflexivity].
Defined.

(** X12.  A call of the entry point only appends to the submission history,
    and what it appends is one of: nothing, the switch sequence, the context
    record, or the switch sequence followed by the context record.  The
    context record never precedes the switch sequence, and the log grows by
    at most the overflow warning. *)
Theorem submission_history `{H : Headers}
    (rb : adreno_ringbuffer) (new_pt : kgsl_pagetable)
    (drawctxt : option adreno_context) (w : world) :
  let w' := snd (adreno_iommu_set_pt_ctx rb new_pt drawctxt w) in
  let P := pagetable_switch_submission rb new_pt in
  let C := context_record_submission rb drawctxt in
  (∃ l, issued w' = issued w ++ l ∧
        (l = [] ∨ l = [P] ∨ l = [C] ∨ l = [P; C])) ∧
  (warnings w' = warnings w ∨ warnings w' = warnings w ++ [overflow_message]).
Proof.
  cbn zeta. pose proof (set_pt_ctx_shape rb new_pt drawctxt w) as Hs.
  cbn zeta in Hs. destruct Hs as (Hi & Hw & _). by split.
Qed.

(** X13.  When the entry point returns 0, the context record has been
    submitted, it is the last submission made, and the transport returned 0
    for it. *)
Theorem success_means_recorded `{H : Headers}
    (rb : adreno_ringbuffer) (new_pt : kgsl_pagetable)
    (drawctxt : option adreno_context) (w : world) :
  fst (adreno_iommu_set_pt_ctx rb new_pt drawctxt w) = 0 →
  ∃ w1,
    snd (adreno_iommu_set_pt_ctx rb new_pt drawctxt w)
      = submit (context_record_submission rb drawctxt) w1 ∧
    transport w1 (issued w1) (context_record_submission rb drawctxt) = 0.
Proof.
  rewrite set_pt_ctx_unfold.
  destruct (negb _ && negb _).
  - destruct (_set_pagetable_gpu rb new_pt w) as [r w1].
    unfold int_true. destruct (r =? 0) eqn:Hr; cbn [negb].
    + rewrite set_ctxt_gpu_run. cbn. intros E. by exists w1.
    + cbn. intros ->. by rewrite Z.eqb_refl in Hr.
  - rewrite set_ctxt_gpu_run. cbn. intros E. by exists w.
Qed.

Lemma success_means_recorded_witness :
  fst (@adreno_iommu_set_pt_ctx Scenario.page_4k Scenario.plain_ring 2
         (Some Scenario.context7) Scenario.calm) = 0
  ∧ ∃ w1,
      snd (@adreno_iommu_set_pt_ctx Scenario.page_4k Scenario.plain_ring 2
             (Some Scenario.context7) Scenario.calm)
        = submit (@context_record_submission Scenario.page_4k
                    Scenario.plain_ring (Some Scenario.context7)) w1 ∧
      transport w1 (issued w1)
        (@context_record_submission Scenario.page_4k Scenario.plain_ring
           (Some Scenario.context7)) = 0.
Proof.
  split; [by vm_compute|].
  apply (@success_means_recorded Scenario.page_4k Scenario.plain_ring 2
           (Some Scenario.context7) Scenario.calm).
  by vm_compute.
Defined.

(** X14.  The entry point never hands the transport a word it did not
    store: every submission it adds carries as many words as its count, all
    of them initialised. *)
Theorem no_uninitialised_words `{H : Headers}
    (rb : adreno_ringbuffer) (new_pt : kgsl_pagetable)
    (drawctxt : option adreno_context) (w : world) (s : submission) :
  s ∈ issued (snd (adreno_iommu_set_pt_ctx rb new_pt drawctxt w)) →
  s ∈ issued w ∨
  (length (sub_words s) = sub_count s ∧ Forall is_Some (sub_words s)).
Proof.
  pose proof (set_pt_ctx_shape rb new_pt drawctxt w) as Hs.
  cbn zeta in Hs. destruct Hs as ((l & El & Hl) & _). rewrite El.
  intros [Hin|Hin]%elem_of_app; [by left|right].
  assert (∃ flags ws, s = submission_of rb flags ws) as (flags & ws & ->).
  { destruct Hl as [-> | [-> | [-> | ->]]];
      repeat match goal with
             | Hx : _ ∈ [] |- _ => by apply elem_of_nil in Hx
             | Hx : _ ∈ _ :: _ |- _ => apply elem_of_cons in Hx as [-> | Hx]
             end;
      unfold pagetable_switch_submission, context_record_submission; eauto. }
  cbn. split; [apply length_fmap|].
  apply Forall_fmap, Forall_true. by eexists.
Qed.

Lemma no_uninitialised_words_witness :
  @context_record_submission Scenario.page_4k Scenario.plain_ring
      (Some Scenario.context7)
    ∈ issued (snd (@adreno_iommu_set_pt_ctx Scenario.page_4k Scenario.plain_ring
                     1 (Some Scenario.context7) Scenario.calm))
  ∧ (@context_record_submission Scenario.page_4k Scenario.plain_ring
        (Some Scenario.context7) ∈ issued Scenario.calm ∨
     (length (sub_words (@context_record_submission Scenario.page_4k
                           Scenario.plain_ring (Some Scenario.context7)))
      = sub_count (@context_record_submission Scenario.page_4k
                     Scenario.plain_ring (Some Scenario.context7)) ∧
      Forall is_Some
        (sub_words (@context_record_submission Scenario.page_4k
                      Scenario.plain_ring (Some Scenario.context7))))).
Proof.
  assert (Hin : @context_record_submission Scenario.page_4k Scenario.plain_ring
                  (Some Scenario.context7)
                ∈ issued (snd (@adreno_iommu_set_pt_ctx Scenario.page_4k
                                 Scenario.plain_ring 1 (Some Scenario.context7)
                                 Scenario.calm))).
  { vm_compute. constructor. }
  split; [exact Hin|].
  exact (@no_uninitialised_words Scenario.page_4k Scenario.plain_ring 1
           (Some Scenario.context7) Scenario.calm _ Hin).
Defined.

(** X15.  A switch that is needed, on a device that is not in a fault, with
    memory available and a transport that accepts the switch sequence, makes
    exactly two submissions: first the switch sequence in protected mode,
    then the context record with no flags; the result is the transport's
    answer to the context record, given after it has seen the switch. *)
Theorem healthy_switch `{H : Headers}
    (rb : adreno_ringbuffer) (new_pt : kgsl_pagetable)
    (drawctxt : option adreno_context) (w : world) :
  kgsl_mmu_get_mmutype (KGSL_DEVICE (ADRENO_RB_DEVICE rb)) ≠ KGSL_MMU_TYPE_NONE →
  new_pt ≠ active_pagetable rb →
  kmalloc_fails w = false →
  test_bit ADRENO_DEVICE_FAULT (priv (ADRENO_RB_DEVICE rb)) = false →
  transport w (issued w) (pagetable_switch_submission rb new_pt) = 0 →
  fst (adreno_iommu_set_pt_ctx rb new_pt drawctxt w)
    = transport w (issued w ++ [pagetable_switch_submission rb new_pt])
        (context_record_submission rb drawctxt)
  ∧ issued (snd (adreno_iommu_set_pt_ctx rb new_pt drawctxt w))
    = issued w ++ [pagetable_switch_submission rb new_pt;
                   context_record_submission rb drawctxt]
  ∧ sub_flags (pagetable_switch_submission rb new_pt) = KGSL_CMD_FLAGS_PMODE
  ∧ sub_flags (context_record_submission rb drawctxt) = 0.
Proof.
  intros Hn Hp Hm Hf Ht. rewrite set_pt_ctx_unfold.
  apply Z.eqb_neq in Hn, Hp. rewrite Hn, Hp. cbn [negb andb].
  rewrite set_pagetable_gpu_run by done. cbn zeta. rewrite Ht.
  cbn [int_true Z.eqb negb]. rewrite set_ctxt_gpu_run.
  case_bool_decide; cbn; rewrite <- ?app_assoc; done.
Qed.

Lemma healthy_switch_witness :
  @kgsl_mmu_get_mmutype Scenario.page_4k
      (KGSL_DEVICE (ADRENO_RB_DEVICE Scenario.plain_ring))
    ≠ @KGSL_MMU_TYPE_NONE Scenario.page_4k
  ∧ 2 ≠ active_pagetable Scenario.plain_ring
  ∧ kmalloc_fails Scenario.calm = false
  ∧ test_bit (@ADRENO_DEVICE_FAULT Scenario.page_4k)
             (priv (ADRENO_RB_DEVICE Scenario.plain_ring)) = false
  ∧ transport Scenario.calm (issued Scenario.calm)
      (@pagetable_switch_submission Scenario.page_4k Scenario.plain_ring 2) = 0
  ∧ fst (@adreno_iommu_set_pt_ctx Scenario.page_4k Scenario.plain_ring 2
           (Some Scenario.context7) Scenario.calm) = 0
  ∧ issued (snd (@adreno_iommu_set_pt_ctx Scenario.page_4k Scenario.plain_ring
                   2 (Some Scenario.context7) Scenario.calm))
    = issued Scenario.calm ++
        [@pagetable_switch_submission Scenario.page_4k Scenario.plain_ring 2;
         @context_record_submission Scenario.page_4k Scenario.plain_ring
           (Some Scenario.context7)]
  ∧ sub_flags (@pagetable_switch_submission Scenario.page_4k
                 Scenario.plain_ring 2) = 1
  ∧ sub_flags (@context_record_submission Scenario.page_4k Scenario.plain_ring
                 (Some Scenario.context7)) = 0.
Proof.
  split; [by vm_compute|]. split; [by vm_compute|]. split; [reflexivity|].
  split; [reflexivity|]. split; [reflexivity|].
  apply (@healthy_switch Scenario.page_4k Scenario.plain_ring 2
           (Some Scenario.context7) Scenario.calm);
    [by vm_compute|by vm_compute|reflexivity|reflexivity|reflexivity].
Defined.


(** X17.  A context record has six words of the builder's own besides the
    identifier marker and the two GPU addresses; its count is the same for
    every context argument and every buffer state. *)
Theorem context_record_count `{H : Headers}
    (rb : adreno_ringbuffer) (drawctxt : option adreno_context) (b : cmdbuf) :
  let adreno_dev := ADRENO_RB_DEVICE rb in
  let device := KGSL_DEVICE adreno_dev in
  fst (__add_curr_ctxt_cmds rb drawctxt b) =
    (length (identifier_pkt adreno_dev CONTEXT_TO_MEM_IDENTIFIER) +
     length (gpuaddr_pkt adreno_dev
               (MEMSTORE_RB_GPU_ADDR device rb current_context)) +
     length (gpuaddr_pkt adreno_dev
               (MEMSTORE_ID_GPU_ADDR device KGSL_MEMSTORE_GLOBAL
                  current_context)) +
     6)%nat.
Proof.
  cbn zeta. rewrite writes_add_curr_ctxt_cmds. cbn [fst].
  unfold context_record_words. cbn zeta.
  rewrite !length_app. simpl. unfold word. lia.
Qed.
